(** * Hoodlums Seafood sales dashboard (Sales.py): a shallow embedding

    The script loads three tables (transactions, items, staff), parses the
    timestamps, filters by date, left-joins the tables, derives Sales, filters
    by staff name, renders metrics, charts and tables, and on the way derives
    Profit.  Every stage below carries the name of the variable it computes in
    [Sales.py] and the lines it comes from.

    Modelling conventions.
    - A pandas [float64] value is an exact rational or NaN: [float := option Qc],
      [None] being NaN (the "missing" marker).  Binary rounding of float64 is
      not modelled.
    - A [datetime64[ns]] value is the integer count of nanoseconds since the
      epoch, [None] being NaT; a [datetime.date] is its day number.
    - A cell read by [pd.read_csv] is NaN, a number, or a string ([cell]); a
      text column holds [option string].
    - A table is the list of its rows, in index order.
    - A raised Python exception ends the script: the run keeps what was
      rendered before it. *)

From Stdlib Require Import ZArith QArith Qcanon Qround Qabs List Bool Ascii String Lia.
From Stdlib Require Import DecimalString DecimalN Permutation Sorted.
Import ListNotations.

Local Open Scope string_scope.
Local Open Scope Z_scope.

(* ------------------------------------------------------------------ *)
(** ** Values *)

(** float64: [None] is NaN. *)
Definition float := option Qc.

(** A cell of a frame as [pd.read_csv] leaves it. *)
Inductive cell :=
| NaN
| Num (x : Qc)
| Str (s : string).

(** Elementwise float arithmetic: NaN is absorbing. *)
Definition fmul (a b : float) : float :=
  match a, b with
  | Some x, Some y => Some (x * y)%Qc
  | _, _ => None
  end.

Definition fsub (a b : float) : float :=
  match a, b with
  | Some x, Some y => Some (x - y)%Qc
  | _, _ => None
  end.

Definition Qc_leb (x y : Qc) : bool := Qle_bool x y.
Definition Qc_ltb (x y : Qc) : bool := negb (Qle_bool y x).

Definition Qc_of_Z (z : Z) : Qc := Q2Qc (inject_Z z).

(** Python exceptions the script can raise. *)
Inductive exn :=
| ValueError (msg : string).

Definition result (A : Type) : Type := (exn + A)%type.

Definition ok {A} (a : A) : result A := inr a.
Definition raise {A} (e : exn) : result A := inl e.

Definition rbind {A B} (m : result A) (k : A -> result B) : result B :=
  match m with
  | inl e => inl e
  | inr a => k a
  end.

(** A column conversion that raises at the first value it cannot convert. *)
Fixpoint mapM {A B} (f : A -> result B) (l : list A) : result (list B) :=
  match l with
  | [] => ok []
  | a :: l' =>
      rbind (f a) (fun b => rbind (mapM f l') (fun bs => ok (b :: bs)))
  end.

(* ------------------------------------------------------------------ *)
(** ** Number parsing: Python's [float(str)]

    The decimal fragment of the grammar: surrounding whitespace, an optional
    sign, digits with an optional fractional part.  Exponents, underscores and
    the words inf/nan are outside the fragment and are read as failures,
    where Python gives 1000.0 for "1e3", 10.0 for "1_0" and NaN for "nan".
    A value the fragment gives is the value Python gives; a failure of the
    fragment is a failure of Python only for the strings of [never_a_float]
    below. *)

Definition is_digit (c : ascii) : bool :=
  let n := nat_of_ascii c in (48 <=? n)%nat && (n <=? 57)%nat.

Definition is_space (c : ascii) : bool :=
  let n := nat_of_ascii c in (n =? 32)%nat || ((9 <=? n)%nat && (n <=? 13)%nat).

Definition digit_val (c : ascii) : Z := Z.of_nat (nat_of_ascii c) - 48.

Definition digits_val (l : list ascii) : Z :=
  fold_left (fun acc c => 10 * acc + digit_val c) l 0.

Fixpoint span_digits (l : list ascii) : list ascii * list ascii :=
  match l with
  | c :: l' =>
      if is_digit c
      then let (ds, rest) := span_digits l' in (c :: ds, rest)
      else ([], l)
  | [] => ([], [])
  end.

Fixpoint lstrip (l : list ascii) : list ascii :=
  match l with
  | c :: l' => if is_space c then lstrip l' else l
  | [] => []
  end.

Definition strip (l : list ascii) : list ascii :=
  rev (lstrip (rev (lstrip l))).

(** The unsigned part: digits [. digits], or [.] digits. *)
Definition parse_unsigned (l : list ascii) : option Q :=
  let (ip, rest) := span_digits l in
  match rest with
  | [] =>
      match ip with
      | [] => None
      | _ => Some (inject_Z (digits_val ip))
      end
  | c :: rest' =>
      if Ascii.eqb c "."
      then
        let (fp, rest'') := span_digits rest' in
        match rest'', (ip ++ fp)%list with
        | [], _ :: _ =>
            Some (Qmake (digits_val (ip ++ fp))
                        (Z.to_pos (10 ^ Z.of_nat (List.length fp))))
        | _, _ => None
        end
      else None
  end.

Definition parse_float (s : string) : option Qc :=
  match strip (list_ascii_of_string s) with
  | c :: l' =>
      if Ascii.eqb c "-" then option_map (fun q => Q2Qc (- q)) (parse_unsigned l')
      else if Ascii.eqb c "+" then option_map Q2Qc (parse_unsigned l')
      else option_map Q2Qc (parse_unsigned (c :: l'))
  | [] => None
  end.

(** [Series.replace('[\$,]', '', regex=True)] on one cell: every dollar sign
    and comma of a string is removed; other cells are untouched. *)
Definition is_currency_mark (c : ascii) : bool :=
  Ascii.eqb c "$" || Ascii.eqb c ",".

Definition strip_currency (s : string) : string :=
  string_of_list_ascii
    (filter (fun c => negb (is_currency_mark c)) (list_ascii_of_string s)).

Definition replace_currency (c : cell) : cell :=
  match c with
  | Str s => Str (strip_currency s)
  | _ => c
  end.

(** [.astype(float)] on one cell: raises on a string that is not a number
    (within the fragment of [parse_float]: the spellings of nan and inf,
    which Python converts without raising, are not modelled). *)
Definition astype_float (c : cell) : result float :=
  match c with
  | NaN => ok None
  | Num x => ok (Some x)
  | Str s =>
      match parse_float s with
      | Some x => ok (Some x)
      | None => raise (ValueError ("could not convert string to float: '" ++ s ++ "'"))
      end
  end.

(** [pd.to_numeric(_, errors="coerce")] on one cell: never raises. *)
Definition to_numeric_coerce (c : cell) : float :=
  match c with
  | NaN => None
  | Num x => Some x
  | Str s => parse_float s
  end.

(** Lines 65 and 169: the currency clean-up of one cell. *)
Definition clean_currency (c : cell) : result float :=
  astype_float (replace_currency c).

(* ------------------------------------------------------------------ *)
(** ** Currency formatting: ["${:,.2f}".format(x)] *)

Definition round_half_even (q : Q) : Z :=
  let f := Qfloor q in
  match Qcompare (q - inject_Z f) (1 # 2) with
  | Lt => f
  | Gt => f + 1
  | Eq => if Z.even f then f else f + 1
  end.

Definition digits_of_Z (z : Z) : list ascii :=
  list_ascii_of_string (NilZero.string_of_uint (N.to_uint (Z.to_N z))).

(** Insert a comma every three digits, counting from the right. *)
Fixpoint group3 (rev_digits : list ascii) : list ascii :=
  match rev_digits with
  | a :: b :: c :: ((_ :: _) as rest) => a :: b :: c :: ","%char :: group3 rest
  | _ => rev_digits
  end.

Definition pad2 (l : list ascii) : list ascii :=
  match l with
  | [c] => ["0"%char; c]
  | _ => l
  end.

Definition format_2f (x : Qc) : string :=
  let neg := Qc_ltb x (Qc_of_Z 0) in
  let cents := round_half_even (Qabs x * 100) in
  let whole := rev (group3 (rev (digits_of_Z (cents / 100)))) in
  let frac := pad2 (digits_of_Z (cents mod 100)) in
  (if neg then "-" else "") ++ string_of_list_ascii (whole ++ "."%char :: frac).

Definition fmt_money (x : float) : string :=
  match x with
  | Some q => "$" ++ format_2f q
  | None => "$nan"
  end.

(* ------------------------------------------------------------------ *)
(** ** Timestamps: [pd.to_datetime] (line 28)

    The recognised fragment is ISO 8601: [YYYY-MM-DD], optionally followed by
    a space or [T] and [HH:MM:SS]. *)

Definition ns_per_second : Z := 1000000000.
Definition ns_per_day : Z := 86400 * ns_per_second.

Definition is_leap (y : Z) : bool :=
  ((y mod 4 =? 0) && negb (y mod 100 =? 0)) || (y mod 400 =? 0).

Definition days_in_month (y m : Z) : Z :=
  if m =? 2 then (if is_leap y then 29 else 28)
  else if (m =? 4) || (m =? 6) || (m =? 9) || (m =? 11) then 30
  else 31.

(** Day number of a civil date, counted from 1970-01-01. *)
Definition days_from_civil (y m d : Z) : Z :=
  let y' := if m <=? 2 then y - 1 else y in
  let era := y' / 400 in
  let yoe := y' - era * 400 in
  let mp := (m + 9) mod 12 in
  let doy := (153 * mp + 2) / 5 + d - 1 in
  let doe := yoe * 365 + yoe / 4 - yoe / 100 + doy in
  era * 146097 + doe - 719468.

Definition all_digits (l : list ascii) : bool := forallb is_digit l.

Definition parse_date (l : list ascii) : option Z :=
  match l with
  | [y1; y2; y3; y4; s1; m1; m2; s2; d1; d2] =>
      if all_digits [y1; y2; y3; y4; m1; m2; d1; d2]
         && Ascii.eqb s1 "-" && Ascii.eqb s2 "-"
      then
        let y := digits_val [y1; y2; y3; y4] in
        let m := digits_val [m1; m2] in
        let d := digits_val [d1; d2] in
        if (1 <=? m) && (m <=? 12) && (1 <=? d) && (d <=? days_in_month y m)
        then Some (days_from_civil y m d)
        else None
      else None
  | _ => None
  end.

Definition parse_time (l : list ascii) : option Z :=
  match l with
  | [h1; h2; s1; m1; m2; s2; c1; c2] =>
      if all_digits [h1; h2; m1; m2; c1; c2]
         && Ascii.eqb s1 ":" && Ascii.eqb s2 ":"
      then
        let h := digits_val [h1; h2] in
        let m := digits_val [m1; m2] in
        let c := digits_val [c1; c2] in
        if (h <? 24) && (m <? 60) && (c <? 60)
        then Some (h * 3600 + m * 60 + c)
        else None
      else None
  | _ => None
  end.

(** One timestamp string, as nanoseconds since the epoch. *)
Definition parse_datetime (s : string) : option Z :=
  let l := strip (list_ascii_of_string s) in
  match parse_date (firstn 10 l), skipn 10 l with
  | Some days, [] => Some (days * ns_per_day)
  | Some days, sep :: tl =>
      if Ascii.eqb sep " " || Ascii.eqb sep "T"
      then option_map (fun secs => days * ns_per_day + secs * ns_per_second)
                      (parse_time tl)
      else None
  | None, _ => None
  end.

(** [pd.to_datetime] on one value: a missing value becomes NaT, a string that
    is not a date/time raises (the default [errors="raise"]).  The reading is
    ISO only and value by value; pandas reads more layouts and may fix the
    layout from the first value of the column.  [to_datetime_with] below
    takes the reading as a parameter. *)
Definition to_datetime1 (v : option string) : result (option Z) :=
  match v with
  | None => ok None
  | Some s =>
      match parse_datetime s with
      | Some t => ok (Some t)
      | None => raise (ValueError ("Unknown datetime string format, unable to parse: " ++ s))
      end
  end.

(** [Timestamp.date()] / [Series.dt.date]: the day number of a timestamp. *)
Definition date (t : Z) : Z := t / ns_per_day.

(* ------------------------------------------------------------------ *)
(** ** The three loaded tables (lines 19-25) *)

Definition key := option string.

(** Rows of [transactions]; [TS] is the type of the Timestamp column: strings
    as loaded, nanoseconds after line 28. *)
Module Tx.
Record t (TS : Type) := mk {
  Timestamp : TS;
  Food : key;
  User : key;
  Customer : key;
  Amount : cell
}.
Arguments mk {TS}.
Arguments Timestamp {TS}.
Arguments Food {TS}.
Arguments User {TS}.
Arguments Customer {TS}.
Arguments Amount {TS}.
End Tx.

(** Rows of [items], with the column names of line 25. *)
Module Items.
Record t := mk {
  Item : key;
  Material_Cost : cell;
  RRP : cell;
  Mates_Rates : cell
}.
End Items.

(** Rows of [staff]. *)
Module Staff.
Record t := mk {
  Email : key;
  Staff_Name : key
}.
End Staff.

Definition raw_transactions := list (Tx.t (option string)).
Definition transactions_t := list (Tx.t (option Z)).

(** Line 28: the Timestamp column is replaced by its parsed form; one value
    that does not parse raises for the whole column. *)
Definition parse_timestamp (r : Tx.t (option string)) : result (Tx.t (option Z)) :=
  rbind (to_datetime1 (Tx.Timestamp r))
        (fun ts => ok (Tx.mk ts (Tx.Food r) (Tx.User r) (Tx.Customer r) (Tx.Amount r))).

Definition to_datetime (transactions : raw_transactions) : result transactions_t :=
  mapM parse_timestamp transactions.

(* ------------------------------------------------------------------ *)
(** ** Date filter (lines 35-43) *)

Definition opt_min (a : option Z) (t : option Z) : option Z :=
  match a, t with
  | Some x, Some y => Some (Z.min x y)
  | None, _ => t
  | _, None => a
  end.

Definition opt_max (a : option Z) (t : option Z) : option Z :=
  match a, t with
  | Some x, Some y => Some (Z.max x y)
  | None, _ => t
  | _, None => a
  end.

(** [Series.min()] / [Series.max()] of the Timestamp column: NaT is skipped;
    NaT ([None]) when no timestamp is present. *)
Definition ts_min (transactions : transactions_t) : option Z :=
  fold_left opt_min (map Tx.Timestamp transactions) None.

Definition ts_max (transactions : transactions_t) : option Z :=
  fold_left opt_max (map Tx.Timestamp transactions) None.

Definition min_date (transactions : transactions_t) : option Z :=
  option_map date (ts_min transactions).

Definition max_date (transactions : transactions_t) : option Z :=
  option_map date (ts_max transactions).

(** Line 42: NaT compares false. *)
Definition mask (start_date end_date : Z) (r : Tx.t (option Z)) : bool :=
  match Tx.Timestamp r with
  | Some t => (start_date <=? date t) && (date t <=? end_date)
  | None => false
  end.

Definition filtered_tx (start_date end_date : Z) (transactions : transactions_t)
  : transactions_t :=
  filter (mask start_date end_date) transactions.

(* ------------------------------------------------------------------ *)
(** ** Joins (lines 48-62) *)

(** Key equality of [pd.merge]: missing keys match each other. *)
Definition key_eqb (a b : key) : bool :=
  match a, b with
  | Some x, Some y => String.eqb x y
  | None, None => true
  | _, _ => false
  end.

(** [pd.merge(left, right, how="left", left_on=, right_on=)]: every left row,
    in order, once per matching right row, or once alone. *)
Definition merge_left {L R : Type} (left_on : L -> key) (right_on : R -> key)
    (left : list L) (right : list R) : list (L * option R) :=
  flat_map
    (fun l =>
       match filter (fun r => key_eqb (left_on l) (right_on r)) right with
       | [] => [(l, None)]
       | ms => map (fun r => (l, Some r)) ms
       end)
    left.

(** Rows of [merged] as the two merges leave it (line 62); the columns of an
    unmatched right row are NaN. *)
Module Joined.
Record t := mk {
  Timestamp : option Z;
  Food : key;
  User : key;
  Customer : key;
  Amount : cell;
  Item : key;
  Material_Cost : cell;
  RRP : cell;
  Mates_Rates : cell;
  Email : key;
  Staff_Name : key
}.
End Joined.

Definition merge1 (filtered : transactions_t) (items : list Items.t)
  : list (Tx.t (option Z) * option Items.t) :=
  merge_left Tx.Food Items.Item filtered items.

Definition joined_row (x : Tx.t (option Z) * option Items.t * option Staff.t)
  : Joined.t :=
  let '(tx, it, st) := x in
  Joined.mk (Tx.Timestamp tx) (Tx.Food tx) (Tx.User tx) (Tx.Customer tx)
            (Tx.Amount tx)
            (match it with Some i => Items.Item i | None => None end)
            (match it with Some i => Items.Material_Cost i | None => NaN end)
            (match it with Some i => Items.RRP i | None => NaN end)
            (match it with Some i => Items.Mates_Rates i | None => NaN end)
            (match st with Some s => Staff.Email s | None => None end)
            (match st with Some s => Staff.Staff_Name s | None => None end).

Definition merge2 (filtered : transactions_t) (items : list Items.t)
    (staff : list Staff.t) : list Joined.t :=
  map joined_row
      (merge_left (fun x => Tx.User (fst x)) Staff.Email
                  (merge1 filtered items) staff).

(* ------------------------------------------------------------------ *)
(** ** Derived column Sales (lines 65-71) *)

(** Rows of [merged] once RRP and Amount are numeric and Sales is added. *)
Module Merged.
Record t := mk {
  Timestamp : option Z;
  Food : key;
  User : key;
  Customer : key;
  Amount : float;
  Item : key;
  Material_Cost : cell;
  RRP : float;
  Mates_Rates : cell;
  Email : key;
  Staff_Name : key;
  Sales : float
}.
End Merged.

Definition with_sales (r : Joined.t) : result Merged.t :=
  rbind (clean_currency (Joined.RRP r)) (fun rrp =>
    let amount := to_numeric_coerce (Joined.Amount r) in
    ok (Merged.mk (Joined.Timestamp r) (Joined.Food r) (Joined.User r)
                  (Joined.Customer r) amount (Joined.Item r)
                  (Joined.Material_Cost r) rrp (Joined.Mates_Rates r)
                  (Joined.Email r) (Joined.Staff_Name r)
                  (fmul amount rrp))).

(** [merged] at line 71; raises at the first RRP that is not a number. *)
Definition merged (joined : list Joined.t) : result (list Merged.t) :=
  mapM with_sales joined.

(* ------------------------------------------------------------------ *)
(** ** Staff filter (lines 76-80) *)

Fixpoint dropna {A} (l : list (option A)) : list A :=
  match l with
  | Some a :: l' => a :: dropna l'
  | None :: l' => dropna l'
  | [] => []
  end.

Definition mem (x : string) (l : list string) : bool :=
  existsb (String.eqb x) l.

(** [Series.unique()]: distinct values in order of first appearance. *)
Fixpoint unique_from (seen : list string) (l : list string) : list string :=
  match l with
  | x :: l' =>
      if mem x seen then unique_from seen l'
      else x :: unique_from (x :: seen) l'
  | [] => []
  end.

Definition unique (l : list string) : list string := unique_from [] l.

(** Line 76: the options (and the default) of the staff multiselect. *)
Definition staff_names (m : list Merged.t) : list string :=
  unique (dropna (map Merged.Staff_Name m)).

(** [Series.isin(values)] for a list of names: a missing name is in no list. *)
Definition isin (values : list string) (k : key) : bool :=
  match k with
  | Some n => mem n values
  | None => false
  end.

(** Line 80. *)
Definition filtered_merged (m : list Merged.t) (selected_staff : list string)
  : list Merged.t :=
  filter (fun r => isin selected_staff (Merged.Staff_Name r)) m.

(* ------------------------------------------------------------------ *)
(** ** Aggregation primitives *)

(** [Series.sum()]: NaN is skipped; the empty sum is 0. *)
Definition sum_skipna (l : list float) : Qc :=
  fold_left (fun acc v => match v with Some x => (acc + x)%Qc | None => acc end)
            l (Qc_of_Z 0).

Fixpoint insert_key (x : string) (l : list string) : list string :=
  match l with
  | y :: l' => if String.leb x y then x :: l else y :: insert_key x l'
  | [] => [x]
  end.

Definition sort_keys (l : list string) : list string :=
  fold_right insert_key [] l.

(** [DataFrame.groupby(by)]: one group per distinct non-missing key, keys in
    ascending order, each group holding its rows in frame order. *)
Definition groupby {R : Type} (by_ : R -> key) (rows : list R)
  : list (string * list R) :=
  map (fun k => (k, filter (fun r => key_eqb (by_ r) (Some k)) rows))
      (sort_keys (unique (dropna (map by_ rows)))).

(** [groupby(by)[col].sum()]. *)
Definition groupby_sum {R : Type} (by_ : R -> key) (col : R -> float)
    (rows : list R) : list (string * Qc) :=
  map (fun g => (fst g, sum_skipna (map col (snd g)))) (groupby by_ rows).

(** [sort_values(ascending=False)]: descending by [v]; equal values keep
    their order (pandas' default sort leaves the order of equal values
    open; nothing below depends on it). *)
Fixpoint insert_desc {A : Type} (v : A -> Qc) (x : A) (l : list A) : list A :=
  match l with
  | y :: l' => if Qc_ltb (v x) (v y) then y :: insert_desc v x l' else x :: l
  | [] => [x]
  end.

Definition sort_desc {A : Type} (v : A -> Qc) (l : list A) : list A :=
  fold_right (insert_desc v) [] l.

(** [Series.idxmax()]: the label of the first maximum; raises on an empty
    series. *)
Fixpoint argmax_from (best : string * Qc) (l : list (string * Qc)) : string :=
  match l with
  | p :: l' =>
      if Qc_ltb (snd best) (snd p) then argmax_from p l' else argmax_from best l'
  | [] => fst best
  end.

Definition idxmax (s : list (string * Qc)) : result string :=
  match s with
  | p :: l => ok (argmax_from p l)
  | [] => raise (ValueError "attempt to get argmax of an empty sequence")
  end.

Definition Qc_max (x y : Qc) : Qc := if Qc_leb x y then y else x.

(** [Series.max()]: NaN for an empty series. *)
Definition series_max (l : list Qc) : float :=
  match l with
  | x :: l' => Some (fold_left Qc_max l' x)
  | [] => None
  end.

(** [.head(n)]. *)
Definition head {A : Type} (n : nat) (l : list A) : list A := firstn n l.

(* ------------------------------------------------------------------ *)
(** ** Metrics and views over [filtered_merged] (lines 100-164, 201-233) *)

(** Line 101. *)
Definition total_sales (fm : list Merged.t) : Qc :=
  sum_skipna (map Merged.Sales fm).

(** Line 105. *)
Definition total_transactions (fm : list Merged.t) : Z :=
  Z.of_nat (List.length fm).

Definition sales_by_staff_name (fm : list Merged.t) : list (string * Qc) :=
  groupby_sum Merged.Staff_Name Merged.Sales fm.

(** Lines 109-114. *)
Definition top_staff (fm : list Merged.t) : result string :=
  idxmax (sort_desc snd (sales_by_staff_name fm)).

(** Lines 115-119. *)
Definition top_sales (fm : list Merged.t) : float :=
  series_max (map snd (sales_by_staff_name fm)).

(** Lines 127-132 (the frame the source calls [sales_by_item]) and 154-159. *)
Definition sales_by_item (fm : list Merged.t) : list (string * Qc) :=
  sort_desc snd (sales_by_staff_name fm).

(** Lines 136 and 210: [100 if max_sales < 2000 else 500]; a comparison with
    NaN is false. *)
Definition tick_step (max_sales : float) : Z :=
  match max_sales with
  | Some m => if Qc_ltb m (Qc_of_Z 2000) then 100 else 500
  | None => 500
  end.

Record bar_chart := mk_chart {
  bars : list (string * Qc);
  tickMinStep : Z;
  domain_hi : float
}.

(** Lines 135-148 and 209-222. *)
Definition sales_chart (data : list (string * Qc)) : bar_chart :=
  let max_sales := series_max (map snd data) in
  mk_chart data (tick_step max_sales) (fmul max_sales (Some (Q2Qc (11 # 10)))).

(** Lines 154-163: name, formatted Sales, formatted Pay (30% of Sales). *)
Definition staff_summary (fm : list Merged.t) : list (string * string * string) :=
  map (fun p => (fst p, fmt_money (Some (snd p)),
                 fmt_money (Some (snd p * Q2Qc (3 # 10))%Qc)))
      (sort_desc snd (sales_by_staff_name fm)).

(** Lines 201-207. *)
Definition sales_by_customer (fm : list Merged.t) : list (string * Qc) :=
  head 10 (sort_desc snd (groupby_sum Merged.Customer Merged.Sales fm)).

(** Lines 227-233. *)
Definition display_df (fm : list Merged.t)
  : list (option Z * key * key * key * string) :=
  map (fun r => (Merged.Timestamp r, Merged.Staff_Name r, Merged.Food r,
                 Merged.Customer r, fmt_money (Merged.Sales r)))
      fm.

(* ------------------------------------------------------------------ *)
(** ** Profit (lines 169-183), computed on [merged] *)

Module Profited.
Record t := mk {
  Timestamp : option Z;
  Food : key;
  User : key;
  Customer : key;
  Amount : float;
  Item : key;
  Material_Cost : float;
  RRP : float;
  Mates_Rates : cell;
  Email : key;
  Staff_Name : key;
  Sales : float;
  Profit : float
}.
End Profited.

Definition with_profit (r : Merged.t) : result Profited.t :=
  rbind (clean_currency (Merged.Material_Cost r)) (fun cost =>
    ok (Profited.mk (Merged.Timestamp r) (Merged.Food r) (Merged.User r)
                    (Merged.Customer r) (Merged.Amount r) (Merged.Item r)
                    cost (Merged.RRP r) (Merged.Mates_Rates r)
                    (Merged.Email r) (Merged.Staff_Name r) (Merged.Sales r)
                    (fmul (fsub (Merged.RRP r) cost) (Merged.Amount r)))).

(** [merged] at line 172; raises at the first Material Cost that is not a
    number. *)
Definition merged_profit (m : list Merged.t) : result (list Profited.t) :=
  mapM with_profit m.

(** Lines 175-180: per Item, the summed Profit and the summed Amount, by
    descending Profit. *)
Definition profit_by_item (m : list Profited.t) : list (string * Qc * Qc) :=
  sort_desc (fun x => snd (fst x))
    (map (fun g => (fst g, sum_skipna (map Profited.Profit (snd g)),
                    sum_skipna (map Profited.Amount (snd g))))
         (groupby Profited.Item m)).

(** Line 183. *)
Definition top_profit_items (m : list Profited.t) : list (string * Qc * Qc) :=
  head 10 (profit_by_item m).

(* ------------------------------------------------------------------ *)
(** ** The script: rendering and exceptions

    A run threads the list of elements rendered so far; an exception stops
    the run and leaves that list as it is.  The static elements (title, logo,
    blank line, sidebar header) are left out, and the emoji of the
    subheaders are dropped. *)

Inductive metric_value :=
| MText (s : string)
| MInt (n : Z).

Inductive widget :=
| Metric (label : string) (value : metric_value) (delta : option string)
| Subheader (title : string)
| AltairChart (y_title : string) (c : bar_chart)
| ProfitChart (data : list (string * Qc * Qc))
| PaySummary (rows : list (string * string * string))
| DataFrame (rows : list (option Z * key * key * key * string)).

Definition script (A : Type) : Type := list widget -> list widget * result A.

Definition sret {A} (a : A) : script A := fun out => (out, ok a).

Definition sbind {A B} (m : script A) (k : A -> script B) : script B :=
  fun out =>
    match m out with
    | (out', inr a) => k a out'
    | (out', inl e) => (out', inl e)
    end.

Definition lift {A} (r : result A) : script A := fun out => (out, r).

Definition emit (w : widget) : script unit := fun out => ((out ++ [w])%list, ok tt).

Notation "x <- m ;; k" := (sbind m (fun x => k))
  (at level 61, m at next level, right associativity).
Notation "m ;; k" := (sbind m (fun _ => k))
  (at level 61, right associativity).

(** The sidebar inputs: the two dates, and the staff multiselect, [None]
    while the user has not touched it (line 77: [default=staff_names]). *)
Record sidebar := mk_sidebar {
  start_date : Z;
  end_date : Z;
  staff_choice : option (list string)
}.

(** Line 77: the widget returns the default, or the chosen options. *)
Definition multiselect (options : list string) (choice : option (list string))
  : list string :=
  match choice with
  | None => options
  | Some l => filter (fun n => mem n options) l
  end.

(** The script from line 28 to line 236, statement by statement.  The date
    widgets of lines 35-39 are not modelled: the two dates are taken from the
    sidebar as given, where the widgets keep them within
    [min_date, max_date] and raise when no transaction has a Timestamp. *)
Definition dashboard (transactions : raw_transactions) (items : list Items.t)
    (staff : list Staff.t) (ui : sidebar) : script unit :=
  tx <- lift (to_datetime transactions) ;;
  m <- lift (merged (merge2 (filtered_tx (start_date ui) (end_date ui) tx)
                            items staff)) ;;
  let selected_staff := multiselect (staff_names m) (staff_choice ui) in
  let fm := filtered_merged m selected_staff in
  emit (Metric "Total Sales (RRP)" (MText (fmt_money (Some (total_sales fm)))) None) ;;
  emit (Metric "Transactions" (MInt (total_transactions fm)) None) ;;
  top <- lift (top_staff fm) ;;
  emit (Metric "Top Seller" (MText top) (Some (fmt_money (top_sales fm)))) ;;
  emit (Subheader "Sales by Staff") ;;
  emit (AltairChart "Staff Member" (sales_chart (sales_by_item fm))) ;;
  emit (Subheader "Pay Summary") ;;
  emit (PaySummary (staff_summary fm)) ;;
  emit (Subheader "Profit Margin") ;;
  p <- lift (merged_profit m) ;;
  emit (ProfitChart (top_profit_items p)) ;;
  emit (Subheader "Top 10 Customers") ;;
  emit (AltairChart "Customer" (sales_chart (sales_by_customer fm))) ;;
  emit (Subheader "Transactions") ;;
  emit (DataFrame (display_df fm)).

(** One run of the script: what was rendered, and how the run ended. *)
Definition run (transactions : raw_transactions) (items : list Items.t)
    (staff : list Staff.t) (ui : sidebar) : list widget * result unit :=
  dashboard transactions items staff ui [].

(* ------------------------------------------------------------------ *)
(** ** A run, stage by stage *)

(** Lines 28-71: the frame [merged] of a run, or the exception that ends it
    before anything is rendered. *)
Definition load_merged (transactions : raw_transactions) (items : list Items.t)
    (staff : list Staff.t) (ui : sidebar) : result (list Merged.t) :=
  rbind (to_datetime transactions) (fun tx =>
    merged (merge2 (filtered_tx (start_date ui) (end_date ui) tx) items staff)).

(** Line 77: [selected_staff] of a run. *)
Definition selection (m : list Merged.t) (ui : sidebar) : list string :=
  multiselect (staff_names m) (staff_choice ui).

(** Lines 100-106: the first two metrics. *)
Definition metrics_rendered (fm : list Merged.t) : list widget :=
  [ Metric "Total Sales (RRP)" (MText (fmt_money (Some (total_sales fm)))) None;
    Metric "Transactions" (MInt (total_transactions fm)) None ].

(** Lines 108-166: from the Top Seller metric to the Profit Margin subheader. *)
Definition staff_rendered (fm : list Merged.t) (top : string) : list widget :=
  [ Metric "Top Seller" (MText top) (Some (fmt_money (top_sales fm)));
    Subheader "Sales by Staff";
    AltairChart "Staff Member" (sales_chart (sales_by_item fm));
    Subheader "Pay Summary";
    PaySummary (staff_summary fm);
    Subheader "Profit Margin" ].

(** Lines 186-236: from the profit chart to the transactions table. *)
Definition rest_rendered (p : list Profited.t) (fm : list Merged.t) : list widget :=
  [ ProfitChart (top_profit_items p);
    Subheader "Top 10 Customers";
    AltairChart "Customer" (sales_chart (sales_by_customer fm));
    Subheader "Transactions";
    DataFrame (display_df fm) ].

(** The frame a conversion yields when it does not raise. *)
Definition parsed_of (transactions : raw_transactions) : transactions_t :=
  match to_datetime transactions with
  | inr tx => tx
  | inl _ => []
  end.

Definition merged_of (joined : list Joined.t) : list Merged.t :=
  match merged joined with
  | inr m => m
  | inl _ => []
  end.

Definition profited_of (m : list Merged.t) : list Profited.t :=
  match merged_profit m with
  | inr p => p
  | inl _ => []
  end.

(** Lines 42-236: the script once the Timestamp column is parsed.  It is
    [dashboard] without its first statement. *)
Definition dashboard_after_parse (tx : transactions_t) (items : list Items.t)
    (staff : list Staff.t) (ui : sidebar) : script unit :=
  m <- lift (merged (merge2 (filtered_tx (start_date ui) (end_date ui) tx)
                            items staff)) ;;
  let selected_staff := multiselect (staff_names m) (staff_choice ui) in
  let fm := filtered_merged m selected_staff in
  emit (Metric "Total Sales (RRP)" (MText (fmt_money (Some (total_sales fm)))) None) ;;
  emit (Metric "Transactions" (MInt (total_transactions fm)) None) ;;
  top <- lift (top_staff fm) ;;
  emit (Metric "Top Seller" (MText top) (Some (fmt_money (top_sales fm)))) ;;
  emit (Subheader "Sales by Staff") ;;
  emit (AltairChart "Staff Member" (sales_chart (sales_by_item fm))) ;;
  emit (Subheader "Pay Summary") ;;
  emit (PaySummary (staff_summary fm)) ;;
  emit (Subheader "Profit Margin") ;;
  p <- lift (merged_profit m) ;;
  emit (ProfitChart (top_profit_items p)) ;;
  emit (Subheader "Top 10 Customers") ;;
  emit (AltairChart "Customer" (sales_chart (sales_by_customer fm))) ;;
  emit (Subheader "Transactions") ;;
  emit (DataFrame (display_df fm)).

Definition run_after_parse (tx : transactions_t) (items : list Items.t)
    (staff : list Staff.t) (ui : sidebar) : list widget * result unit :=
  dashboard_after_parse tx items staff ui [].

(** Line 28 for any reading of date strings.  [pd.to_datetime] decides what
    a string denotes from the string and from the column it stands in (the
    format may be fixed by the first value); [read_datetime col s] stands for
    that decision, [None] when the string is rejected.  Whatever the reading,
    the call uses the default [errors="raise"]: a missing value becomes NaT,
    a rejected string raises. *)
Definition read_timestamp (read : string -> option Z) (r : Tx.t (option string))
  : result (Tx.t (option Z)) :=
  match Tx.Timestamp r with
  | None => ok (Tx.mk None (Tx.Food r) (Tx.User r) (Tx.Customer r) (Tx.Amount r))
  | Some s =>
      match read s with
      | Some t =>
          ok (Tx.mk (Some t) (Tx.Food r) (Tx.User r) (Tx.Customer r) (Tx.Amount r))
      | None =>
          raise (ValueError
                   ("Unknown datetime string format, unable to parse: " ++ s))
      end
  end.

Definition to_datetime_with (read_datetime : list (option string) -> string -> option Z)
    (transactions : raw_transactions) : result transactions_t :=
  mapM (read_timestamp (read_datetime (map Tx.Timestamp transactions)))
       transactions.

(** The run for any reading of date strings. *)
Definition run_with (read_datetime : list (option string) -> string -> option Z)
    (transactions : raw_transactions) (items : list Items.t)
    (staff : list Staff.t) (ui : sidebar) : list widget * result unit :=
  sbind (lift (to_datetime_with read_datetime transactions))
        (fun tx => dashboard_after_parse tx items staff ui) [].

(* ------------------------------------------------------------------ *)
(** ** Vocabulary of the properties *)

(** The plain sum of a list of numbers. *)
Definition Qc_sum (l : list Qc) : Qc := fold_right Qcplus (Qc_of_Z 0) l.

(** The rows of a frame that carry key [k]. *)
Definition rows_of {R : Type} (by_ : R -> key) (k : string) (rows : list R) : list R :=
  filter (fun r => key_eqb (by_ r) (Some k)) rows.

(** Summed Sales of one staff member over a set of rows. *)
Definition staff_total (name : string) (rows : list Merged.t) : Qc :=
  sum_skipna (map Merged.Sales (rows_of Merged.Staff_Name name rows)).

(** The summed Sales of staff member [name], read off the rows one by one:
    a row counts when it carries that Staff Name and has a Sales value. *)
Fixpoint summed_sales_from (acc : Qc) (name : string) (rows : list Merged.t) : Qc :=
  match rows with
  | [] => acc
  | r :: rest =>
      match Merged.Staff_Name r, Merged.Sales r with
      | Some n, Some v =>
          if String.eqb n name
          then summed_sales_from (acc + v)%Qc name rest
          else summed_sales_from acc name rest
      | _, _ => summed_sales_from acc name rest
      end
  end.

Definition summed_sales (name : string) (rows : list Merged.t) : Qc :=
  summed_sales_from (Qc_of_Z 0) name rows.






(** Sorted by descending [v]. *)
Definition descending {A} (v : A -> Qc) : list A -> Prop :=
  Sorted (fun a b => (v b <= v a)%Qc).

(** [subseq l1 l2]: the rows of [l1] occur in [l2], in the same order. *)
Inductive subseq {A : Type} : list A -> list A -> Prop :=
| subseq_nil : subseq [] []
| subseq_skip x l1 l2 : subseq l1 l2 -> subseq l1 (x :: l2)
| subseq_keep x l1 l2 : subseq l1 l2 -> subseq (x :: l1) (x :: l2).

Definition has_staff_name (r : Merged.t) : bool :=
  match Merged.Staff_Name r with
  | Some _ => true
  | None => false
  end.

(** The rows of the Profit frame that pass the staff filter. *)
Definition staff_filtered_profit (p : list Profited.t) (selected_staff : list string)
  : list Profited.t :=
  filter (fun q => isin selected_staff (Profited.Staff_Name q)) p.

(** Floats and bars shown as plain fractions, for reading off computed
    tables. *)
Definition as_Q (x : float) : option Q := option_map this x.

Definition bars_Q (l : list (string * Qc)) : list (string * Q) :=
  map (fun x => (fst x, this (snd x))) l.

Definition profit_bars_Q (l : list (string * Qc * Qc)) : list (string * Q * Q) :=
  map (fun x => (fst (fst x), this (snd (fst x)), this (snd x))) l.

(** The transaction columns of a row of [merged]. *)
Definition tx_of_joined (j : Joined.t) : Tx.t (option Z) :=
  Tx.mk (Joined.Timestamp j) (Joined.Food j) (Joined.User j)
        (Joined.Customer j) (Joined.Amount j).

Definition has_timestamp (r : Tx.t (option Z)) : bool :=
  match Tx.Timestamp r with
  | Some _ => true
  | None => false
  end.

(** One step of reading a decimal numeral. *)
Definition step10 (acc : Z) (c : ascii) : Z := 10 * acc + digit_val c.

(** The characters the currency clean-up keeps. *)
Definition keep_char (c : ascii) : bool := negb (is_currency_mark c).

(** The cents of an amount print as two digits that read back as the cents. *)
Definition two_digit_fraction_ok (k : Z) : bool :=
  match pad2 (digits_of_Z k) with
  | [f1; f2] =>
      is_digit f1 && is_digit f2 && (10 * digit_val f1 + digit_val f2 =? k)
  | _ => false
  end.

(* ------------------------------------------------------------------ *)
(** ** Sample tables *)

(** The scenario of the specification: one sale of two Cod by Alice to Bob
    on 2024-01-01. *)
Definition tx_cod : Tx.t (option string) :=
  Tx.mk (Some "2024-01-01") (Some "Cod") (Some "a@x.com") (Some "Bob")
        (Num (Qc_of_Z 2)).

Definition item_cod : Items.t :=
  Items.mk (Some "Cod") (Str "$2.00") (Str "$5.00") NaN.

Definition staff_alice : Staff.t :=
  Staff.mk (Some "a@x.com") (Some "Alice").

(** 2024-01-01 as a day number. *)
Definition day_2024_01_01 : Z := 19723.

(** The sidebar left untouched, both dates on day [d]. *)
Definition ui_default (d : Z) : sidebar := mk_sidebar d d None.

Definition scenario_merged : list Merged.t :=
  match load_merged [tx_cod] [item_cod] [staff_alice] (ui_default day_2024_01_01) with
  | inr m => m
  | inl _ => []
  end.

(** A sale at 23:59:59 on 2024-01-01 and one at midnight two days later. *)
Definition tx_late_evening : Tx.t (option Z) :=
  Tx.mk (Some (19723 * ns_per_day + 86399 * ns_per_second))
        (Some "Cod") (Some "a@x.com") (Some "Bob") (Num (Qc_of_Z 2)).

Definition tx_next_day : Tx.t (option Z) :=
  Tx.mk (Some (19725 * ns_per_day)) (Some "Cod") (Some "a@x.com") (Some "Bob")
        (Num (Qc_of_Z 1)).

(** A sale whose Amount is not a number. *)
Definition tx_unknown_amount : Tx.t (option string) :=
  Tx.mk (Some "2024-01-01") (Some "Cod") (Some "a@x.com") (Some "Eve")
        (Str "N/A").

(** A sale by a user who is not on the staff roster. *)
Definition tx_stranger : Tx.t (option string) :=
  Tx.mk (Some "2024-01-01") (Some "Cod") (Some "z@x.com") (Some "Eve")
        (Num (Qc_of_Z 3)).

(** A sale whose Timestamp is not a date. *)
Definition tx_bad_timestamp : Tx.t (option string) :=
  Tx.mk (Some "yesterday") (Some "Cod") (Some "a@x.com") (Some "Eve")
        (Num (Qc_of_Z 1)).



(** A second item and a second staff member, with one sale of three Crab. *)
Definition item_crab : Items.t :=
  Items.mk (Some "Crab") (Str "$4.00") (Str "$10.00") NaN.

Definition staff_carol : Staff.t :=
  Staff.mk (Some "c@x.com") (Some "Carol").

Definition tx_crab : Tx.t (option string) :=
  Tx.mk (Some "2024-01-01") (Some "Crab") (Some "c@x.com") (Some "Eve")
        (Num (Qc_of_Z 3)).

Definition two_staff_merged : list Merged.t :=
  merged_of (merge2 (parsed_of [tx_cod; tx_crab]) [item_cod; item_crab]
                    [staff_alice; staff_carol]).

(** A sale whose Timestamp is missing. *)
Definition tx_no_timestamp : Tx.t (option Z) :=
  Tx.mk None (Some "Cod") (Some "a@x.com") (Some "Bob") (Num (Qc_of_Z 1)).

(** A sale of a Food that is not on the price list. *)
Definition tx_unknown_food : Tx.t (option Z) :=
  Tx.mk (Some (19723 * ns_per_day)) (Some "Eel") (Some "a@x.com") (Some "Bob")
        (Num (Qc_of_Z 4)).

(* ------------------------------------------------------------------ *)
(** * Properties *)

(** ** Column conversions that may raise *)

Lemma mapM_inr {A B} (f : A -> result B) (l : list A) (out : list B) :
  mapM f l = inr out <-> Forall2 (fun a b => f a = inr b) l out.
Proof.
  revert out; induction l as [|a l IH]; intros out; simpl.
  - split.
    + intros H; inversion H; constructor.
    + intros H; inversion H; reflexivity.
  - destruct (f a) as [e|b] eqn:Ea; simpl.
    + split; [discriminate|].
      intros H; inversion H; subst; congruence.
    + destruct (mapM f l) as [e|bs] eqn:El; simpl.
      * split; [discriminate|].
        intros H; inversion H as [|? b' ? bs' Hb Hbs]; subst.
        apply IH in Hbs; discriminate.
      * split.
        -- intros H; inversion H; subst.
           constructor; [assumption | now apply IH].
        -- intros H; inversion H as [|? b' ? bs' Hb Hbs]; subst.
           apply IH in Hbs. injection Hbs as ->.
           rewrite Ea in Hb. injection Hb as ->. reflexivity.
Qed.

Lemma mapM_inl {A B} (f : A -> result B) (l : list A) (e : exn) :
  mapM f l = inl e -> exists a, In a l /\ f a = inl e.
Proof.
  induction l as [|a l IH]; simpl; [discriminate|].
  destruct (f a) as [e'|b] eqn:Ea; simpl.
  - intros H; injection H as ->. exists a; auto.
  - destruct (mapM f l) as [e'|bs]; simpl; [|discriminate].
    intros H; injection H as ->.
    destruct (IH eq_refl) as (a' & Hin & Hf). exists a'; auto.
Qed.

Lemma mapM_raises {A B} (f : A -> result B) (l : list A) (a : A) (e : exn) :
  In a l -> f a = inl e -> exists e', mapM f l = inl e'.
Proof.
  induction l as [|x l IH]; simpl; [tauto|].
  intros [->|Hin] Hf.
  - rewrite Hf; simpl; eauto.
  - destruct (f x) as [e'|b]; simpl; [eauto|].
    destruct (IH Hin Hf) as (e' & ->); simpl; eauto.
Qed.

Lemma mapM_total {A B} (f : A -> result B) (l : list A) :
  (forall a, In a l -> exists b, f a = inr b) -> exists out, mapM f l = inr out.
Proof.
  induction l as [|x l IH]; simpl; intros H; [eexists; reflexivity|].
  destruct (H x (or_introl eq_refl)) as (b & ->); simpl.
  destruct IH as (out & ->); [auto|]. simpl; eauto.
Qed.

Lemma Forall2_In_r {A B} (P : A -> B -> Prop) l out b :
  Forall2 P l out -> In b out -> exists a, In a l /\ P a b.
Proof.
  induction 1 as [|a b' l out Hp _ IH]; simpl; [tauto|].
  intros [->|Hin]; [exists a; auto|].
  destruct (IH Hin) as (a' & ? & ?); exists a'; auto.
Qed.

Lemma Forall2_In_l {A B} (P : A -> B -> Prop) l out a :
  Forall2 P l out -> In a l -> exists b, In b out /\ P a b.
Proof.
  induction 1 as [|a' b l out Hp _ IH]; simpl; [tauto|].
  intros [->|Hin]; [exists b; auto|].
  destruct (IH Hin) as (b' & ? & ?); exists b'; auto.
Qed.

(** ** Sums *)

Lemma Qc_of_Z_0 : Qc_of_Z 0 = 0%Qc.
Proof. apply Qc_is_canon; reflexivity. Qed.

Lemma fold_sum_acc (l : list float) (acc : Qc) :
  fold_left (fun a v => match v with Some x => (a + x)%Qc | None => a end) l acc
  = (acc + Qc_sum (dropna l))%Qc.
Proof.
  revert acc; induction l as [|[x|] l IH]; intros acc; simpl.
  - unfold Qc_sum; simpl. rewrite Qc_of_Z_0. ring.
  - rewrite IH. unfold Qc_sum; simpl. ring.
  - apply IH.
Qed.

Lemma sum_skipna_dropna (l : list float) : sum_skipna l = Qc_sum (dropna l).
Proof.
  unfold sum_skipna. rewrite fold_sum_acc, Qc_of_Z_0. ring.
Qed.

Lemma sum_skipna_cons_None (l : list float) :
  sum_skipna (None :: l) = sum_skipna l.
Proof. reflexivity. Qed.

Lemma sum_skipna_cons_Some (x : Qc) (l : list float) :
  sum_skipna (Some x :: l) = (x + sum_skipna l)%Qc.
Proof.
  rewrite !sum_skipna_dropna. reflexivity.
Qed.

(** ** Order on Qc *)

Lemma Qc_leb_le x y : Qc_leb x y = true <-> (x <= y)%Qc.
Proof. unfold Qc_leb, Qcle. apply Qle_bool_iff. Qed.

Lemma Qc_ltb_lt x y : Qc_ltb x y = true <-> (x < y)%Qc.
Proof.
  unfold Qc_ltb. rewrite negb_true_iff.
  split.
  - intros H. apply Qcnot_le_lt. intros Hle.
    apply Qc_leb_le in Hle. unfold Qc_leb in Hle. congruence.
  - intros H. destruct (Qle_bool y x) eqn:E; [|reflexivity].
    apply Qle_bool_iff in E. exfalso. now apply (Qclt_not_le _ _ H).
Qed.

Lemma Qc_ltb_ge x y : Qc_ltb x y = false <-> (y <= x)%Qc.
Proof.
  split.
  - intros H. apply Qcnot_lt_le. intros Hlt.
    apply Qc_ltb_lt in Hlt. congruence.
  - intros H. destruct (Qc_ltb x y) eqn:E; [|reflexivity].
    apply Qc_ltb_lt in E. exfalso. now apply (Qclt_not_le _ _ E).
Qed.

(** ** Keys, [unique] and [groupby] *)

Lemma key_eqb_eq (a b : key) : key_eqb a b = true <-> a = b.
Proof.
  destruct a as [x|], b as [y|]; simpl; try (split; [discriminate|congruence]); try tauto.
  rewrite String.eqb_eq. split; congruence.
Qed.

Lemma key_eqb_refl (a : key) : key_eqb a a = true.
Proof. now apply key_eqb_eq. Qed.

Lemma mem_In (x : string) (l : list string) : mem x l = true <-> In x l.
Proof.
  unfold mem. rewrite existsb_exists. split.
  - intros (y & Hin & Heq). apply String.eqb_eq in Heq. now subst.
  - intros H. exists x. split; [assumption | apply String.eqb_refl].
Qed.

Lemma In_dropna {A} (a : A) (l : list (option A)) :
  In a (dropna l) <-> In (Some a) l.
Proof.
  induction l as [|[b|] l IH]; simpl; [tauto| |].
  - rewrite IH. split; intros [H|H]; auto; left; congruence.
  - rewrite IH. split; [auto | intros [H|H]; [discriminate | assumption]].
Qed.

Lemma In_unique_from (x : string) (seen l : list string) :
  In x (unique_from seen l) <-> In x l /\ ~ In x seen.
Proof.
  revert seen; induction l as [|y l IH]; intros seen; simpl; [tauto|].
  destruct (mem y seen) eqn:E.
  - apply mem_In in E. rewrite IH. split.
    + intros [H1 H2]; auto.
    + intros [[->|H1] H2]; [contradiction | auto].
  - assert (Hy : ~ In y seen) by (rewrite <- mem_In; congruence).
    simpl. rewrite IH. simpl. split.
    + intros [->|[H1 H2]]; auto.
    + intros [[->|H1] H2]; auto.
      destruct (string_dec y x) as [->|Hne]; auto.
      right. split; auto. intros [?|?]; auto.
Qed.

Lemma In_unique (x : string) (l : list string) : In x (unique l) <-> In x l.
Proof. unfold unique. rewrite In_unique_from. simpl. tauto. Qed.

Lemma In_insert_key (x y : string) (l : list string) :
  In x (insert_key y l) <-> x = y \/ In x l.
Proof.
  induction l as [|z l IH]; simpl.
  - split; intros [H|H]; auto.
  - destruct (String.leb y z); simpl; [split; intros [H|H]; auto|].
    rewrite IH. split; intros H; intuition auto.
Qed.

Lemma In_sort_keys (x : string) (l : list string) : In x (sort_keys l) <-> In x l.
Proof.
  induction l as [|y l IH]; simpl; [tauto|].
  rewrite In_insert_key, IH. split; intros [H|H]; auto.
Qed.

Lemma groupby_keys {R} (by_ : R -> key) (rows : list R) (k : string) :
  In k (map fst (groupby by_ rows)) <-> exists r, In r rows /\ by_ r = Some k.
Proof.
  unfold groupby. rewrite map_map. simpl. rewrite map_id.
  rewrite In_sort_keys, In_unique, In_dropna, in_map_iff.
  split; intros (r & H1 & H2); exists r; auto.
Qed.

Lemma groupby_group {R} (by_ : R -> key) (rows : list R) (k : string) (g : list R) :
  In (k, g) (groupby by_ rows) -> g = rows_of by_ k rows.
Proof.
  unfold groupby. rewrite in_map_iff.
  intros (k' & Heq & _). injection Heq as -> <-. reflexivity.
Qed.

Lemma groupby_sum_In {R} (by_ : R -> key) (col : R -> float) (rows : list R) k v :
  In (k, v) (groupby_sum by_ col rows) ->
  v = sum_skipna (map col (rows_of by_ k rows)) /\
  exists r, In r rows /\ by_ r = Some k.
Proof.
  unfold groupby_sum. rewrite in_map_iff.
  intros ([k' g] & Heq & Hin). simpl in Heq. injection Heq as -> <-.
  split.
  - now rewrite (groupby_group _ _ _ _ Hin).
  - apply groupby_keys. apply in_map_iff. exists (k, g); auto.
Qed.

Lemma groupby_sum_key {R} (by_ : R -> key) (col : R -> float) (rows : list R) r k :
  In r rows -> by_ r = Some k ->
  In (k, sum_skipna (map col (rows_of by_ k rows))) (groupby_sum by_ col rows).
Proof.
  intros Hin Hk.
  assert (Hg : In k (map fst (groupby by_ rows))) by (apply groupby_keys; eauto).
  apply in_map_iff in Hg. destruct Hg as ([k' g] & Hfst & Hg). simpl in Hfst; subst k'.
  unfold groupby_sum. apply in_map_iff. exists (k, g). simpl.
  split; [|assumption].
  now rewrite (groupby_group _ _ _ _ Hg).
Qed.

(** ** [sort_values(ascending=False)] *)

Lemma insert_desc_perm {A} (v : A -> Qc) (x : A) (l : list A) :
  Permutation (x :: l) (insert_desc v x l).
Proof.
  induction l as [|y l IH]; simpl; [reflexivity|].
  destruct (Qc_ltb (v x) (v y)); [|reflexivity].
  rewrite perm_swap. now constructor.
Qed.

Lemma sort_desc_perm {A} (v : A -> Qc) (l : list A) :
  Permutation l (sort_desc v l).
Proof.
  induction l as [|x l IH]; simpl; [reflexivity|].
  rewrite <- insert_desc_perm. now constructor.
Qed.

Lemma insert_desc_sorted {A} (v : A -> Qc) (x : A) (l : list A) :
  descending v l -> descending v (insert_desc v x l).
Proof.
  unfold descending.
  induction l as [|y l IH]; simpl; intros Hs.
  - repeat constructor.
  - destruct (Qc_ltb (v x) (v y)) eqn:E.
    + inversion Hs as [|? ? Hs' Hhd]; subst.
      constructor; [now apply IH|].
      destruct l as [|z l]; simpl.
      * constructor. apply Qc_ltb_lt in E. now apply Qclt_le_weak.
      * destruct (Qc_ltb (v x) (v z)).
        -- constructor. now inversion Hhd.
        -- constructor. apply Qc_ltb_lt in E. now apply Qclt_le_weak.
    + constructor; [assumption|]. constructor. now apply Qc_ltb_ge.
Qed.

Lemma sort_desc_sorted {A} (v : A -> Qc) (l : list A) :
  descending v (sort_desc v l).
Proof.
  induction l as [|x l IH]; simpl; [constructor|].
  now apply insert_desc_sorted.
Qed.

Lemma In_sort_desc {A} (v : A -> Qc) (l : list A) (x : A) :
  In x (sort_desc v l) <-> In x l.
Proof.
  split; apply Permutation_in; [symmetry|]; apply sort_desc_perm.
Qed.

(** ** [idxmax] and [max] *)

Lemma argmax_from_spec (l : list (string * Qc)) (best : string * Qc) :
  exists p, In p (best :: l) /\ argmax_from best l = fst p /\
            forall q, In q (best :: l) -> (snd q <= snd p)%Qc.
Proof.
  revert best; induction l as [|x l IH]; intros best; simpl.
  - exists best. repeat split; auto.
    intros q [<-|[]]. apply Qcle_refl.
  - destruct (Qc_ltb (snd best) (snd x)) eqn:E.
    + destruct (IH x) as (p & Hin & Harg & Hmax).
      exists p. repeat split; [simpl in *; tauto | assumption |].
      intros q [<-|Hq]; [|now apply Hmax].
      apply Qcle_trans with (snd x).
      * apply Qclt_le_weak. now apply Qc_ltb_lt.
      * apply Hmax. now left.
    + destruct (IH best) as (p & Hin & Harg & Hmax).
      exists p. repeat split; [simpl in *; tauto | assumption |].
      intros q [<-|[<-|Hq]].
      * apply Hmax. now left.
      * apply Qcle_trans with (snd best).
        -- now apply Qc_ltb_ge.
        -- apply Hmax. now left.
      * apply Hmax. now right.
Qed.

Lemma idxmax_spec (s : list (string * Qc)) :
  s <> [] ->
  exists p, In p s /\ idxmax s = inr (fst p) /\
            forall q, In q s -> (snd q <= snd p)%Qc.
Proof.
  destruct s as [|b l]; [congruence|]. intros _.
  destruct (argmax_from_spec l b) as (p & Hin & Harg & Hmax).
  exists p. simpl. rewrite Harg. auto.
Qed.

Lemma Qc_max_spec x y :
  (x <= Qc_max x y)%Qc /\ (y <= Qc_max x y)%Qc /\ (Qc_max x y = x \/ Qc_max x y = y).
Proof.
  unfold Qc_max. destruct (Qc_leb x y) eqn:E.
  - apply Qc_leb_le in E. repeat split; auto. apply Qcle_refl.
  - repeat split; auto; [apply Qcle_refl|].
    destruct (Qclt_le_dec y x) as [H|H].
    + now apply Qclt_le_weak.
    + apply Qc_leb_le in H. congruence.
Qed.

Lemma fold_max_spec (l : list Qc) (x : Qc) :
  In (fold_left Qc_max l x) (x :: l) /\
  forall y, In y (x :: l) -> (y <= fold_left Qc_max l x)%Qc.
Proof.
  revert x; induction l as [|z l IH]; intros x; simpl.
  - split; auto. intros y [<-|[]]. apply Qcle_refl.
  - destruct (IH (Qc_max x z)) as [Hin Hmax].
    destruct (Qc_max_spec x z) as (Hx & Hz & Hor).
    split.
    + destruct Hin as [Hin|Hin]; [|auto].
      destruct Hor as [Heq|Heq]; rewrite Heq in *; auto.
    + intros y [<-|[<-|Hy]].
      * eapply Qcle_trans; [exact Hx|]. apply Hmax. now left.
      * eapply Qcle_trans; [exact Hz|]. apply Hmax. now left.
      * apply Hmax. now right.
Qed.

Lemma series_max_spec (l : list Qc) (m : Qc) :
  series_max l = Some m -> In m l /\ forall y, In y l -> (y <= m)%Qc.
Proof.
  destruct l as [|x l]; simpl; [discriminate|].
  intros H; injection H as <-. apply fold_max_spec.
Qed.

(** ** Date filter *)

Lemma ns_per_day_pos : 0 < ns_per_day.
Proof. reflexivity. Qed.

Lemma date_of_day_and_time (d tod : Z) :
  0 <= tod < ns_per_day -> date (d * ns_per_day + tod) = d.
Proof.
  intros H. unfold date.
  rewrite Z.div_add_l by (pose proof ns_per_day_pos; lia).
  rewrite Z.div_small by assumption. lia.
Qed.

Lemma date_mono (a b : Z) : a <= b -> date a <= date b.
Proof.
  intros H. unfold date. apply Z.div_le_mono; [apply ns_per_day_pos | assumption].
Qed.

Lemma mask_NaT (start_date end_date : Z) (r : Tx.t (option Z)) :
  Tx.Timestamp r = None -> mask start_date end_date r = false.
Proof. unfold mask. now intros ->. Qed.

Lemma mask_spec (start_date end_date : Z) (r : Tx.t (option Z)) (t : Z) :
  Tx.Timestamp r = Some t ->
  (mask start_date end_date r = true <-> start_date <= date t <= end_date).
Proof.
  unfold mask. intros ->. rewrite andb_true_iff, !Z.leb_le. tauto.
Qed.

(** C7.  For every transaction row whose Timestamp is day [d] at time of day
    [tod], and every date range, the date filter keeps the row exactly when
    [start_date <= d <= end_date]: both ends are inclusive and the time of
    day plays no part. *)
Theorem date_filter_inclusive
    (start_date end_date : Z) (transactions : transactions_t)
    (r : Tx.t (option Z)) (d tod : Z) :
  Tx.Timestamp r = Some (d * ns_per_day + tod) ->
  0 <= tod < ns_per_day ->
  (In r (filtered_tx start_date end_date transactions)
   <-> In r transactions /\ start_date <= d <= end_date).
Proof.
  intros Hts Htod. unfold filtered_tx.
  rewrite filter_In, (mask_spec _ _ _ _ Hts), date_of_day_and_time by assumption.
  tauto.
Qed.

Lemma date_filter_inclusive_witness :
  Tx.Timestamp tx_late_evening = Some (19723 * ns_per_day + 86399 * ns_per_second)
  /\ 0 <= 86399 * ns_per_second < ns_per_day
  /\ (In tx_late_evening (filtered_tx 19723 19723 [tx_late_evening])
      <-> In tx_late_evening [tx_late_evening] /\ 19723 <= 19723 <= 19723).
Proof.
  split; [reflexivity|].
  split; [unfold ns_per_day, ns_per_second; lia|].
  apply (date_filter_inclusive 19723 19723 [tx_late_evening] tx_late_evening
                               19723 (86399 * ns_per_second)).
  - reflexivity.
  - unfold ns_per_day, ns_per_second; lia.
Defined.

(** ** Narrowing the date range *)

Lemma subseq_refl {A} (l : list A) : subseq l l.
Proof. induction l; [apply subseq_nil | now apply subseq_keep]. Qed.

Lemma subseq_incl {A} (l1 l2 : list A) : subseq l1 l2 -> incl l1 l2.
Proof.
  induction 1 as [|x l1 l2 _ IH|x l1 l2 _ IH]; intros a Ha.
  - assumption.
  - right. now apply IH.
  - destruct Ha as [->|Ha]; [now left | right; now apply IH].
Qed.

Lemma subseq_app {A} (l1 l1' l2 l2' : list A) :
  subseq l1 l1' -> subseq l2 l2' -> subseq (l1 ++ l2) (l1' ++ l2').
Proof.
  induction 1 as [|x l1 l1' _ IH|x l1 l1' _ IH]; simpl; intros H2.
  - assumption.
  - apply subseq_skip. now apply IH.
  - apply subseq_keep. now apply IH.
Qed.

Lemma subseq_nil_l {A} (l : list A) : subseq [] l.
Proof. induction l; [apply subseq_nil | now apply subseq_skip]. Qed.

Lemma subseq_flat_map {A B} (f : A -> list B) (l1 l2 : list A) :
  subseq l1 l2 -> subseq (flat_map f l1) (flat_map f l2).
Proof.
  induction 1 as [|x l1 l2 _ IH|x l1 l2 _ IH]; simpl.
  - constructor.
  - change (flat_map f l1) with ([] ++ flat_map f l1)%list.
    apply subseq_app; [apply subseq_nil_l | assumption].
  - apply subseq_app; [apply subseq_refl | assumption].
Qed.

Lemma subseq_map {A B} (f : A -> B) (l1 l2 : list A) :
  subseq l1 l2 -> subseq (map f l1) (map f l2).
Proof.
  induction 1 as [|x l1 l2 _ IH|x l1 l2 _ IH]; simpl.
  - constructor.
  - now apply subseq_skip.
  - now apply subseq_keep.
Qed.

Lemma subseq_filter {A} (p q : A -> bool) (l : list A) :
  (forall x, In x l -> p x = true -> q x = true) ->
  subseq (filter p l) (filter q l).
Proof.
  induction l as [|x l IH]; simpl; intros H; [constructor|].
  assert (IH' : subseq (filter p l) (filter q l)) by (apply IH; auto).
  destruct (p x) eqn:Ep.
  - rewrite (H x (or_introl eq_refl) Ep). now apply subseq_keep.
  - destruct (q x); [apply subseq_skip|]; assumption.
Qed.

Lemma merge_left_subseq {L R} (left_on : L -> key) (right_on : R -> key)
    (l1 l2 : list L) (right : list R) :
  subseq l1 l2 ->
  subseq (merge_left left_on right_on l1 right) (merge_left left_on right_on l2 right).
Proof. apply subseq_flat_map. Qed.

Lemma merge2_subseq (t1 t2 : transactions_t) items staff :
  subseq t1 t2 -> subseq (merge2 t1 items staff) (merge2 t2 items staff).
Proof.
  intros H. unfold merge2, merge1.
  apply subseq_map. now do 2 apply merge_left_subseq.
Qed.

Lemma fold_opt_min_acc (l : list (option Z)) (x : Z) :
  exists m, fold_left opt_min l (Some x) = Some m /\ m <= x.
Proof.
  revert x; induction l as [|[y|] l IH]; intros x; simpl.
  - exists x; split; [reflexivity | lia].
  - destruct (IH (Z.min x y)) as (m & -> & Hm). exists m; split; [reflexivity | lia].
  - apply IH.
Qed.

Lemma fold_opt_min_In (l : list (option Z)) (a : option Z) (t : Z) :
  In (Some t) l -> exists m, fold_left opt_min l a = Some m /\ m <= t.
Proof.
  revert a; induction l as [|y l IH]; intros a; simpl; [tauto|].
  intros [->|Hin]; [|now apply IH].
  destruct a as [x|]; simpl.
  - destruct (fold_opt_min_acc l (Z.min x t)) as (m & -> & Hm).
    exists m; split; [reflexivity | lia].
  - apply fold_opt_min_acc.
Qed.

Lemma fold_opt_max_acc (l : list (option Z)) (x : Z) :
  exists m, fold_left opt_max l (Some x) = Some m /\ x <= m.
Proof.
  revert x; induction l as [|[y|] l IH]; intros x; simpl.
  - exists x; split; [reflexivity | lia].
  - destruct (IH (Z.max x y)) as (m & -> & Hm). exists m; split; [reflexivity | lia].
  - apply IH.
Qed.

Lemma fold_opt_max_In (l : list (option Z)) (a : option Z) (t : Z) :
  In (Some t) l -> exists m, fold_left opt_max l a = Some m /\ t <= m.
Proof.
  revert a; induction l as [|y l IH]; intros a; simpl; [tauto|].
  intros [->|Hin]; [|now apply IH].
  destruct a as [x|]; simpl.
  - destruct (fold_opt_max_acc l (Z.max x t)) as (m & -> & Hm).
    exists m; split; [reflexivity | lia].
  - apply fold_opt_max_acc.
Qed.

Lemma full_range_covers (transactions : transactions_t) (lo hi : Z)
    (r : Tx.t (option Z)) (t : Z) :
  min_date transactions = Some lo -> max_date transactions = Some hi ->
  In r transactions -> Tx.Timestamp r = Some t ->
  lo <= date t <= hi.
Proof.
  unfold min_date, max_date, ts_min, ts_max. intros Hlo Hhi Hin Hts.
  assert (HinT : In (Some t) (map Tx.Timestamp transactions)).
  { rewrite <- Hts. now apply in_map. }
  destruct (fold_opt_min_In _ None t HinT) as (m1 & E1 & H1).
  destruct (fold_opt_max_In _ None t HinT) as (m2 & E2 & H2).
  rewrite E1 in Hlo. rewrite E2 in Hhi. simpl in Hlo, Hhi.
  injection Hlo as <-. injection Hhi as <-.
  split; now apply date_mono.
Qed.

(** C9.  With the full range [min(Timestamp), max(Timestamp)] of the loaded
    transactions, filtering by any range [a, b] and then performing the two
    left joins yields rows that all occur, in the same order, among the rows
    obtained by filtering with the full range and joining.  (The ordering
    a <= b of the range is not needed.) *)
Theorem date_range_narrowing
    (transactions : transactions_t) (items : list Items.t) (staff : list Staff.t)
    (a b lo hi : Z) :
  min_date transactions = Some lo ->
  max_date transactions = Some hi ->
  subseq (merge2 (filtered_tx a b transactions) items staff)
         (merge2 (filtered_tx lo hi transactions) items staff)
  /\ incl (merge2 (filtered_tx a b transactions) items staff)
          (merge2 (filtered_tx lo hi transactions) items staff).
Proof.
  intros Hlo Hhi.
  assert (Hs : subseq (merge2 (filtered_tx a b transactions) items staff)
                      (merge2 (filtered_tx lo hi transactions) items staff)).
  { apply merge2_subseq. unfold filtered_tx. apply subseq_filter.
    intros r Hin Hmask.
    destruct (Tx.Timestamp r) as [t|] eqn:Hts.
    - apply (mask_spec _ _ _ _ Hts).
      eapply full_range_covers; eassumption.
    - rewrite mask_NaT in Hmask by assumption. discriminate. }
  split; [assumption | now apply subseq_incl].
Qed.

Lemma date_range_narrowing_witness :
  min_date [tx_late_evening; tx_next_day] = Some 19723
  /\ max_date [tx_late_evening; tx_next_day] = Some 19725
  /\ subseq (merge2 (filtered_tx 19723 19723 [tx_late_evening; tx_next_day])
                    [item_cod] [staff_alice])
            (merge2 (filtered_tx 19723 19725 [tx_late_evening; tx_next_day])
                    [item_cod] [staff_alice])
  /\ incl (merge2 (filtered_tx 19723 19723 [tx_late_evening; tx_next_day])
                  [item_cod] [staff_alice])
          (merge2 (filtered_tx 19723 19725 [tx_late_evening; tx_next_day])
                  [item_cod] [staff_alice]).
Proof.
  split; [reflexivity|].
  split; [reflexivity|].
  apply (date_range_narrowing [tx_late_evening; tx_next_day] [item_cod]
                              [staff_alice] 19723 19723 19723 19725);
    reflexivity.
Defined.

(** ** The run, stage by stage *)

Lemma run_load_fails transactions items staff ui e :
  load_merged transactions items staff ui = inl e ->
  run transactions items staff ui = ([], inl e).
Proof.
  unfold load_merged, run, dashboard, sbind, lift, rbind.
  destruct (to_datetime transactions) as [e'|tx].
  - intros H; injection H as ->. reflexivity.
  - intros ->. reflexivity.
Qed.

Lemma run_loaded transactions items staff ui m :
  load_merged transactions items staff ui = inr m ->
  run transactions items staff ui =
    let fm := filtered_merged m (selection m ui) in
    match top_staff fm with
    | inl e => (metrics_rendered fm, inl e)
    | inr top =>
        match merged_profit m with
        | inl e => (metrics_rendered fm ++ staff_rendered fm top, inl e)%list
        | inr p =>
            (metrics_rendered fm ++ staff_rendered fm top ++ rest_rendered p fm,
             inr tt)%list
        end
    end.
Proof.
  unfold load_merged, run, dashboard, sbind, lift, emit, rbind, selection.
  destruct (to_datetime transactions) as [e'|tx]; [discriminate|].
  intros ->. cbv zeta.
  destruct (top_staff _) as [e|top]; [reflexivity|].
  destruct (merged_profit m) as [e|p]; reflexivity.
Qed.

(** ** Empty staff selection *)

Lemma filtered_merged_nil_selection (m : list Merged.t) :
  filtered_merged m [] = [].
Proof.
  unfold filtered_merged. induction m as [|r m IH]; simpl; [reflexivity|].
  destruct (Merged.Staff_Name r); simpl; assumption.
Qed.

(** C1.  With an empty staff selection the filtered row set is empty, the
    Total Sales metric shows $0.00 and the transaction count 0; the Top Seller
    metric then raises ValueError ([idxmax] of an empty series), so the run
    ends there and no chart is rendered.  This holds for every date range and
    all tables from which [merged] can be built. *)
Theorem empty_selection_raises_at_top_seller
    transactions items staff (start_date end_date : Z) (m : list Merged.t) :
  load_merged transactions items staff
              (mk_sidebar start_date end_date (Some [])) = inr m ->
  filtered_merged m (selection m (mk_sidebar start_date end_date (Some []))) = []
  /\ run transactions items staff (mk_sidebar start_date end_date (Some []))
     = ([ Metric "Total Sales (RRP)" (MText "$0.00") None;
          Metric "Transactions" (MInt 0) None ],
        inl (ValueError "attempt to get argmax of an empty sequence")).
Proof.
  intros Hm.
  assert (Hfm : filtered_merged m
                  (selection m (mk_sidebar start_date end_date (Some []))) = []).
  { unfold selection. simpl. apply filtered_merged_nil_selection. }
  split; [assumption|].
  rewrite (run_loaded _ _ _ _ _ Hm). cbv zeta. rewrite Hfm. reflexivity.
Qed.

Lemma empty_selection_raises_at_top_seller_witness :
  load_merged [tx_cod] [item_cod] [staff_alice]
              (mk_sidebar day_2024_01_01 day_2024_01_01 (Some []))
  = inr scenario_merged
  /\ filtered_merged scenario_merged
       (selection scenario_merged
                  (mk_sidebar day_2024_01_01 day_2024_01_01 (Some []))) = []
  /\ run [tx_cod] [item_cod] [staff_alice]
         (mk_sidebar day_2024_01_01 day_2024_01_01 (Some []))
     = ([ Metric "Total Sales (RRP)" (MText "$0.00") None;
          Metric "Transactions" (MInt 0) None ],
        inl (ValueError "attempt to get argmax of an empty sequence")).
Proof.
  split; [vm_compute; reflexivity|].
  apply (empty_selection_raises_at_top_seller [tx_cod] [item_cod] [staff_alice]
           day_2024_01_01 day_2024_01_01 scenario_merged).
  vm_compute; reflexivity.
Defined.

(** ** Derived columns *)

Lemma with_sales_inr (j : Joined.t) (r : Merged.t) :
  with_sales j = inr r ->
  clean_currency (Joined.RRP j) = inr (Merged.RRP r)
  /\ Merged.Amount r = to_numeric_coerce (Joined.Amount j)
  /\ Merged.Sales r = fmul (Merged.Amount r) (Merged.RRP r)
  /\ Merged.Staff_Name r = Joined.Staff_Name j
  /\ Merged.Customer r = Joined.Customer j
  /\ Merged.Item r = Joined.Item j
  /\ Merged.Material_Cost r = Joined.Material_Cost j.
Proof.
  unfold with_sales, rbind.
  destruct (clean_currency (Joined.RRP j)) as [e|rrp]; [discriminate|].
  intros H; injection H as <-. simpl. repeat split; reflexivity.
Qed.

Lemma with_sales_ignores_amount (j : Joined.t) (rrp : float) :
  clean_currency (Joined.RRP j) = inr rrp -> exists r, with_sales j = inr r.
Proof.
  unfold with_sales, rbind. intros ->. eexists; reflexivity.
Qed.

Lemma with_profit_inr (r : Merged.t) (q : Profited.t) :
  with_profit r = inr q ->
  clean_currency (Merged.Material_Cost r) = inr (Profited.Material_Cost q)
  /\ Profited.Amount q = Merged.Amount r
  /\ Profited.RRP q = Merged.RRP r
  /\ Profited.Sales q = Merged.Sales r
  /\ Profited.Profit q =
       fmul (fsub (Profited.RRP q) (Profited.Material_Cost q)) (Profited.Amount q)
  /\ Profited.Item q = Merged.Item r
  /\ Profited.Staff_Name q = Merged.Staff_Name r.
Proof.
  unfold with_profit, rbind.
  destruct (clean_currency (Merged.Material_Cost r)) as [e|cost]; [discriminate|].
  intros H; injection H as <-. simpl. repeat split; reflexivity.
Qed.

Lemma merged_rows (j : list Joined.t) (m : list Merged.t) (r : Merged.t) :
  merged j = inr m -> In r m -> exists jr, In jr j /\ with_sales jr = inr r.
Proof.
  unfold merged. intros H Hin. apply mapM_inr in H.
  exact (Forall2_In_r _ _ _ _ H Hin).
Qed.

Lemma merged_profit_rows (m : list Merged.t) (p : list Profited.t) (q : Profited.t) :
  merged_profit m = inr p -> In q p -> exists r, In r m /\ with_profit r = inr q.
Proof.
  unfold merged_profit. intros H Hin. apply mapM_inr in H.
  exact (Forall2_In_r _ _ _ _ H Hin).
Qed.

Lemma filtered_merged_In (m : list Merged.t) (selected_staff : list string) r :
  In r (filtered_merged m selected_staff) <->
  In r m /\ exists n, Merged.Staff_Name r = Some n /\ In n selected_staff.
Proof.
  unfold filtered_merged. rewrite filter_In. unfold isin.
  destruct (Merged.Staff_Name r) as [n|].
  - rewrite mem_In. split.
    + intros [H1 H2]; split; eauto.
    + intros [H1 (n' & Heq & H2)]. injection Heq as ->. auto.
  - split; [intros [_ H]; discriminate | intros [_ (n & H & _)]; discriminate].
Qed.

(** C4.  Whenever the run gets as far as rendering, the Total Sales metric is
    the formatted sum of Sales over the filtered and joined rows that have a
    Sales value; a row's Sales is Amount x RRP with Amount coerced, so an
    Amount such as "N/A" gives a missing Sales, which is left out of the sum
    (not counted as zero), and no Amount value makes the derivation raise. *)
Theorem total_sales_excludes_missing
    transactions items staff (ui : sidebar)
    (tx : transactions_t) (m : list Merged.t) :
  to_datetime transactions = inr tx ->
  merged (merge2 (filtered_tx (start_date ui) (end_date ui) tx) items staff)
    = inr m ->
  let fm := filtered_merged m (selection m ui) in
  hd_error (fst (run transactions items staff ui))
    = Some (Metric "Total Sales (RRP)"
                   (MText (fmt_money (Some (Qc_sum (dropna (map Merged.Sales fm))))))
                   None)
  /\ (forall r, In r fm ->
        exists j,
          In j (merge2 (filtered_tx (start_date ui) (end_date ui) tx) items staff)
          /\ Merged.Amount r = to_numeric_coerce (Joined.Amount j)
          /\ Merged.Sales r = fmul (Merged.Amount r) (Merged.RRP r))
  /\ (forall r, In r fm -> Merged.Amount r = None -> Merged.Sales r = None)
  /\ (forall r rest, Merged.Sales r = None ->
        total_sales (r :: rest) = total_sales rest)
  /\ to_numeric_coerce (Str "N/A") = None
  /\ (forall j rrp, clean_currency (Joined.RRP j) = inr rrp ->
        exists r, with_sales j = inr r).
Proof.
  intros Htx Hm fm.
  assert (Hload : load_merged transactions items staff ui = inr m).
  { unfold load_merged. rewrite Htx. exact Hm. }
  assert (Hrow : forall r, In r fm ->
        exists j,
          In j (merge2 (filtered_tx (start_date ui) (end_date ui) tx) items staff)
          /\ Merged.Amount r = to_numeric_coerce (Joined.Amount j)
          /\ Merged.Sales r = fmul (Merged.Amount r) (Merged.RRP r)).
  { intros r Hin. apply filtered_merged_In in Hin. destruct Hin as [Hin _].
    destruct (merged_rows _ _ _ Hm Hin) as (j & Hj & Hw).
    apply with_sales_inr in Hw. exists j. tauto. }
  split.
  { rewrite (run_loaded _ _ _ _ _ Hload). cbv zeta. fold fm.
    rewrite <- sum_skipna_dropna. fold (total_sales fm).
    destruct (top_staff fm); [reflexivity|].
    destruct (merged_profit m); reflexivity. }
  split; [exact Hrow|].
  split.
  { intros r Hin Ha. destruct (Hrow r Hin) as (_ & _ & _ & ->).
    rewrite Ha. reflexivity. }
  split.
  { intros r rest Hs. unfold total_sales. simpl map. rewrite Hs.
    apply sum_skipna_cons_None. }
  split; [reflexivity|].
  exact with_sales_ignores_amount.
Qed.

Lemma total_sales_excludes_missing_witness :
  to_datetime [tx_cod; tx_unknown_amount]
  = inr (parsed_of [tx_cod; tx_unknown_amount])
  /\ merged (merge2 (filtered_tx day_2024_01_01 day_2024_01_01
                             (parsed_of [tx_cod; tx_unknown_amount]))
                    [item_cod] [staff_alice])
     = inr (merged_of (merge2 (filtered_tx day_2024_01_01 day_2024_01_01
                                 (parsed_of [tx_cod; tx_unknown_amount]))
                              [item_cod] [staff_alice]))
  /\ hd_error (fst (run [tx_cod; tx_unknown_amount] [item_cod] [staff_alice]
                        (ui_default day_2024_01_01)))
     = Some (Metric "Total Sales (RRP)" (MText "$10.00") None)
  /\ map (fun r => (Merged.Customer r, as_Q (Merged.Sales r)))
         (filtered_merged
            (merged_of (merge2 (filtered_tx day_2024_01_01 day_2024_01_01
                                  (parsed_of [tx_cod; tx_unknown_amount]))
                               [item_cod] [staff_alice]))
            ["Alice"])
     = [(Some "Bob", Some (10 # 1)); (Some "Eve", None)].
Proof.
  assert (H1 : to_datetime [tx_cod; tx_unknown_amount]
               = inr (parsed_of [tx_cod; tx_unknown_amount]))
    by (vm_compute; reflexivity).
  assert (H2 : merged (merge2 (filtered_tx day_2024_01_01 day_2024_01_01
                                 (parsed_of [tx_cod; tx_unknown_amount]))
                              [item_cod] [staff_alice])
               = inr (merged_of (merge2 (filtered_tx day_2024_01_01 day_2024_01_01
                                           (parsed_of [tx_cod; tx_unknown_amount]))
                                        [item_cod] [staff_alice])))
    by (vm_compute; reflexivity).
  split; [exact H1|]. split; [exact H2|].
  split.
  - exact (proj1 (total_sales_excludes_missing
                    [tx_cod; tx_unknown_amount] [item_cod] [staff_alice]
                    (ui_default day_2024_01_01) _ _ H1 H2)).
  - vm_compute; reflexivity.
Defined.

(** C5.  On every row of [merged] with Amount, RRP and Material Cost present,
    Sales = Amount x RRP and Profit = (RRP - Material Cost) x Amount.  In the
    one-row scenario (Amount 2, RRP "$5.00", Material Cost "$2.00", staff
    Alice) the merged row has Sales 10 and Profit 6, and the Top Seller
    metric shows Alice with $10.00. *)
Theorem derived_sales_and_profit :
  (forall (j : list Joined.t) (m : list Merged.t) (p : list Profited.t),
      merged j = inr m -> merged_profit m = inr p ->
      forall q amount rrp cost,
        In q p ->
        Profited.Amount q = Some amount ->
        Profited.RRP q = Some rrp ->
        Profited.Material_Cost q = Some cost ->
        Profited.Sales q = Some (amount * rrp)%Qc
        /\ Profited.Profit q = Some ((rrp - cost) * amount)%Qc)
  /\ load_merged [tx_cod] [item_cod] [staff_alice] (ui_default day_2024_01_01)
     = inr scenario_merged
  /\ merged_profit scenario_merged = inr (profited_of scenario_merged)
  /\ map (fun q => (Profited.Staff_Name q, as_Q (Profited.Amount q),
                    as_Q (Profited.RRP q), as_Q (Profited.Material_Cost q),
                    as_Q (Profited.Sales q), as_Q (Profited.Profit q)))
         (profited_of scenario_merged)
     = [(Some "Alice", Some (2 # 1), Some (5 # 1), Some (2 # 1),
         Some (10 # 1), Some (6 # 1))]
  /\ nth_error (fst (run [tx_cod] [item_cod] [staff_alice]
                         (ui_default day_2024_01_01))) 2
     = Some (Metric "Top Seller" (MText "Alice") (Some "$10.00")).
Proof.
  split.
  - intros j m p Hm Hp q amount rrp cost Hq Ha Hr Hc.
    destruct (merged_profit_rows _ _ _ Hp Hq) as (r & Hr_in & Hwp).
    destruct (merged_rows _ _ _ Hm Hr_in) as (jr & _ & Hws).
    apply with_sales_inr in Hws.
    destruct Hws as (_ & _ & Hsales & _).
    apply with_profit_inr in Hwp.
    destruct Hwp as (_ & HA & HR & HS & HP & _).
    split.
    + rewrite HS, Hsales, <- HA, <- HR, Ha, Hr. reflexivity.
    + rewrite HP, Hr, Hc, Ha. reflexivity.
  - repeat split; vm_compute; reflexivity.
Qed.

Lemma derived_sales_and_profit_witness :
  merged (merge2 (parsed_of [tx_cod]) [item_cod] [staff_alice])
  = inr scenario_merged
  /\ merged_profit scenario_merged = inr (profited_of scenario_merged)
  /\ forall q,
       In q (profited_of scenario_merged) ->
       Profited.Amount q = Some (Qc_of_Z 2) ->
       Profited.RRP q = Some (Qc_of_Z 5) ->
       Profited.Material_Cost q = Some (Qc_of_Z 2) ->
       Profited.Sales q = Some (Qc_of_Z 2 * Qc_of_Z 5)%Qc
       /\ Profited.Profit q = Some ((Qc_of_Z 5 - Qc_of_Z 2) * Qc_of_Z 2)%Qc.
Proof.
  assert (H1 : merged (merge2 (parsed_of [tx_cod]) [item_cod] [staff_alice])
               = inr scenario_merged) by (vm_compute; reflexivity).
  assert (H2 : merged_profit scenario_merged = inr (profited_of scenario_merged))
    by (vm_compute; reflexivity).
  split; [exact H1|]. split; [exact H2|].
  intros q.
  exact (proj1 derived_sales_and_profit _ _ _ H1 H2 q
               (Qc_of_Z 2) (Qc_of_Z 5) (Qc_of_Z 2)).
Defined.

(** ** Top seller *)

Lemma series_max_nonempty (l : list Qc) : l <> [] -> exists m, series_max l = Some m.
Proof. destruct l; [congruence | simpl; eauto]. Qed.

Lemma top_seller_max_group_total (m : list Merged.t) (selected_staff : list string) :
  filtered_merged m selected_staff <> [] ->
  exists top,
    top_staff (filtered_merged m selected_staff) = inr top
    /\ (exists r, In r (filtered_merged m selected_staff)
                  /\ Merged.Staff_Name r = Some top)
    /\ top_sales (filtered_merged m selected_staff)
       = Some (staff_total top (filtered_merged m selected_staff))
    /\ forall other r,
         In r (filtered_merged m selected_staff) ->
         Merged.Staff_Name r = Some other ->
         (staff_total other (filtered_merged m selected_staff)
          <= staff_total top (filtered_merged m selected_staff))%Qc.
Proof.
  set (fm := filtered_merged m selected_staff). intros Hne.
  destruct fm as [|r0 rest] eqn:Efm; [congruence|].
  assert (Hr0 : In r0 fm) by (rewrite Efm; now left).
  rewrite <- Efm in *. clear Hne.
  pose proof Hr0 as Hsel. apply filtered_merged_In in Hsel.
  destruct Hsel as (_ & n0 & Hn0 & _).
  pose proof (groupby_sum_key Merged.Staff_Name Merged.Sales fm r0 n0 Hr0 Hn0) as Hg0.
  fold (staff_total n0 fm) in Hg0. fold (sales_by_staff_name fm) in Hg0.
  assert (Hsorted_ne : sort_desc snd (sales_by_staff_name fm) <> []).
  { intros E. apply (In_sort_desc snd) in Hg0. rewrite E in Hg0. contradiction. }
  destruct (idxmax_spec _ Hsorted_ne) as ([top v] & Hin & Hidx & Hmax).
  simpl in Hidx.
  apply In_sort_desc in Hin.
  destruct (groupby_sum_In _ _ _ _ _ Hin) as (Hv & rt & Hrt & Hname).
  fold (staff_total top fm) in Hv.
  assert (Hle : forall other r, In r fm -> Merged.Staff_Name r = Some other ->
                                (staff_total other fm <= staff_total top fm)%Qc).
  { intros other r Hr Ho.
    pose proof (groupby_sum_key Merged.Staff_Name Merged.Sales fm r other Hr Ho) as Hg.
    fold (staff_total other fm) in Hg. fold (sales_by_staff_name fm) in Hg.
    apply (In_sort_desc snd) in Hg. apply Hmax in Hg. simpl in Hg.
    now rewrite <- Hv. }
  exists top. split; [exact Hidx|]. split; [eauto|]. split; [|exact Hle].
  unfold top_sales.
  destruct (series_max_nonempty (map snd (sales_by_staff_name fm))) as (mx & Emx).
  { intros E. apply (in_map snd) in Hin. rewrite E in Hin. contradiction. }
  rewrite Emx. f_equal.
  destruct (series_max_spec _ _ Emx) as [Hmx_in Hmx_max].
  apply in_map_iff in Hmx_in. destruct Hmx_in as ([k w] & Hw & Hkw). simpl in Hw; subst w.
  apply Qcle_antisym.
  - apply (In_sort_desc snd) in Hkw. apply Hmax in Hkw. simpl in Hkw.
    now rewrite <- Hv.
  - rewrite <- Hv. apply Hmx_max. apply (in_map snd) in Hin. exact Hin.
Qed.

Lemma group_total_is_summed_sales (name : string) (rows : list Merged.t) (acc : Qc) :
  fold_left (fun a v => match v with Some x => (a + x)%Qc | None => a end)
            (map Merged.Sales (rows_of Merged.Staff_Name name rows)) acc
  = summed_sales_from acc name rows.
Proof.
  revert acc; induction rows as [|r rows IH]; intros acc; [reflexivity|].
  unfold rows_of in *. cbn [filter summed_sales_from].
  destruct (Merged.Staff_Name r) as [n|]; cbn [key_eqb].
  - destruct (String.eqb n name).
    + cbn [map fold_left]. destruct (Merged.Sales r); apply IH.
    + destruct (Merged.Sales r); apply IH.
  - apply IH.
Qed.

Lemma staff_total_is_summed_sales (name : string) (rows : list Merged.t) :
  staff_total name rows = summed_sales name rows.
Proof. apply group_total_is_summed_sales. Qed.

(** C6.  For every non-empty filtered row set the Top Seller metric names a
    staff member of that set; the amount shown is that member's summed Sales,
    added up row by row over the set, and it is greater than or equal to the
    summed Sales of every staff member of the set. *)
Theorem top_seller_is_maximal (m : list Merged.t) (selected_staff : list string) :
  filtered_merged m selected_staff <> [] ->
  exists top,
    top_staff (filtered_merged m selected_staff) = inr top
    /\ (exists r, In r (filtered_merged m selected_staff)
                  /\ Merged.Staff_Name r = Some top)
    /\ top_sales (filtered_merged m selected_staff)
       = Some (summed_sales top (filtered_merged m selected_staff))
    /\ forall other r,
         In r (filtered_merged m selected_staff) ->
         Merged.Staff_Name r = Some other ->
         (summed_sales other (filtered_merged m selected_staff)
          <= summed_sales top (filtered_merged m selected_staff))%Qc.
Proof.
  intros Hne.
  destruct (top_seller_max_group_total m selected_staff Hne)
    as (top & Htop & Hrow & Hsales & Hmax).
  exists top. split; [exact Htop|]. split; [exact Hrow|].
  split.
  - rewrite Hsales. f_equal. apply staff_total_is_summed_sales.
  - intros other r Hr Ho. rewrite <- !staff_total_is_summed_sales.
    exact (Hmax other r Hr Ho).
Qed.

Lemma top_seller_is_maximal_witness :
  filtered_merged two_staff_merged ["Alice"; "Carol"] <> []
  /\ map (fun r => (Merged.Staff_Name r, as_Q (Merged.Sales r)))
         (filtered_merged two_staff_merged ["Alice"; "Carol"])
     = [(Some "Alice", Some (10 # 1)); (Some "Carol", Some (30 # 1))]
  /\ top_staff (filtered_merged two_staff_merged ["Alice"; "Carol"]) = inr "Carol"
  /\ as_Q (top_sales (filtered_merged two_staff_merged ["Alice"; "Carol"]))
     = Some (30 # 1)
  /\ this (summed_sales "Carol" (filtered_merged two_staff_merged ["Alice"; "Carol"]))
     = 30 # 1
  /\ this (summed_sales "Alice" (filtered_merged two_staff_merged ["Alice"; "Carol"]))
     = 10 # 1
  /\ exists top,
       top_staff (filtered_merged two_staff_merged ["Alice"; "Carol"]) = inr top
       /\ (exists r, In r (filtered_merged two_staff_merged ["Alice"; "Carol"])
                     /\ Merged.Staff_Name r = Some top)
       /\ top_sales (filtered_merged two_staff_merged ["Alice"; "Carol"])
          = Some (summed_sales top
                    (filtered_merged two_staff_merged ["Alice"; "Carol"]))
       /\ forall other r,
            In r (filtered_merged two_staff_merged ["Alice"; "Carol"]) ->
            Merged.Staff_Name r = Some other ->
            (summed_sales other
               (filtered_merged two_staff_merged ["Alice"; "Carol"])
             <= summed_sales top
                  (filtered_merged two_staff_merged ["Alice"; "Carol"]))%Qc.
Proof.
  assert (H : filtered_merged two_staff_merged ["Alice"; "Carol"] <> [])
    by (vm_compute; discriminate).
  split; [exact H|].
  split; [vm_compute; reflexivity|].
  split; [vm_compute; reflexivity|].
  split; [vm_compute; reflexivity|].
  split; [vm_compute; reflexivity|].
  split; [vm_compute; reflexivity|].
  exact (top_seller_is_maximal two_staff_merged ["Alice"; "Carol"] H).
Defined.

(** ** Left joins *)

Lemma merge_left_In {L R} (left_on : L -> key) (right_on : R -> key)
    (left : list L) (right : list R) (l : L) (o : option R) :
  In (l, o) (merge_left left_on right_on left right) <->
  In l left /\
  match o with
  | Some r => In r right /\ key_eqb (left_on l) (right_on r) = true
  | None => forall r, In r right -> key_eqb (left_on l) (right_on r) = false
  end.
Proof.
  unfold merge_left. rewrite in_flat_map. split.
  - intros (l' & Hl' & Hin).
    destruct (filter (fun r => key_eqb (left_on l') (right_on r)) right)
      as [|r0 ms] eqn:Ef.
    + destruct Hin as [Heq|[]]. injection Heq as Hl Ho. subst l' o.
      split; [assumption|]. intros r Hr.
      destruct (key_eqb (left_on l) (right_on r)) eqn:E; [|reflexivity].
      assert (Hf : In r (filter (fun r => key_eqb (left_on l) (right_on r)) right))
        by (apply filter_In; auto).
      rewrite Ef in Hf. contradiction.
    + apply in_map_iff in Hin. destruct Hin as (r & Heq & Hr).
      injection Heq as Hl Ho. subst l' o. split; [assumption|].
      rewrite <- Ef in Hr. now apply filter_In in Hr.
  - intros (Hl & Ho). exists l. split; [assumption|].
    destruct (filter (fun r => key_eqb (left_on l) (right_on r)) right)
      as [|r0 ms] eqn:Ef.
    + destruct o as [r|]; [|now left].
      destruct Ho as [Hr Hk].
      assert (Hf : In r (filter (fun r => key_eqb (left_on l) (right_on r)) right))
        by (apply filter_In; auto).
      rewrite Ef in Hf. contradiction.
    + destruct o as [r|].
      * apply in_map_iff. exists r. split; [reflexivity|].
        rewrite <- Ef. now apply filter_In.
      * assert (Hf : In r0 (filter (fun r => key_eqb (left_on l) (right_on r)) right))
          by (rewrite Ef; now left).
        apply filter_In in Hf. destruct Hf as [Hr0 Hk].
        rewrite (Ho r0 Hr0) in Hk. discriminate.
Qed.

Lemma merge2_unmatched_user (tx : transactions_t) items staff (j : Joined.t) :
  In j (merge2 tx items staff) ->
  (forall s, In s staff -> key_eqb (Joined.User j) (Staff.Email s) = false) ->
  Joined.Staff_Name j = None.
Proof.
  unfold merge2. rewrite in_map_iff.
  intros ([[t it] [s|]] & <- & Hin) Hno; simpl in *; [|reflexivity].
  apply merge_left_In in Hin. destruct Hin as (_ & Hs & Hk). simpl in Hk.
  rewrite (Hno s Hs) in Hk. discriminate.
Qed.

(** ** Default staff selection *)

Lemma isin_staff_names (m : list Merged.t) (r : Merged.t) :
  In r m -> isin (staff_names m) (Merged.Staff_Name r) = has_staff_name r.
Proof.
  intros Hin. unfold isin, has_staff_name, staff_names.
  destruct (Merged.Staff_Name r) as [n|] eqn:E; [|reflexivity].
  apply mem_In, In_unique, In_dropna. rewrite <- E. now apply in_map.
Qed.

Lemma filter_ext_In' {A} (f g : A -> bool) (l : list A) :
  (forall a, In a l -> f a = g a) -> filter f l = filter g l.
Proof.
  induction l as [|x l IH]; simpl; intros H; [reflexivity|].
  rewrite (H x (or_introl eq_refl)), IH by auto. reflexivity.
Qed.

Lemma with_sales_user (j : Joined.t) (r : Merged.t) :
  with_sales j = inr r ->
  Merged.User r = Joined.User j /\ Merged.Staff_Name r = Joined.Staff_Name j.
Proof.
  unfold with_sales, rbind.
  destruct (clean_currency (Joined.RRP j)) as [e|rrp]; [discriminate|].
  intros H; injection H as <-. simpl. auto.
Qed.

(** C10.  Under the default staff selection the staff-filtered rows are
    exactly the rows of [merged] with a Staff Name.  A row whose User matches
    no staff Email has no Staff Name after the left join, so it is left out
    of the filtered rows and with them of the Total Sales sum, the
    transaction count and every staff-filtered view. *)
Theorem default_selection_drops_unnamed
    (tx : transactions_t) (items : list Items.t) (staff : list Staff.t)
    (m : list Merged.t) (ui : sidebar) :
  merged (merge2 tx items staff) = inr m ->
  staff_choice ui = None ->
  filtered_merged m (selection m ui) = filter has_staff_name m
  /\ (forall r, In r m ->
        (forall s, In s staff -> key_eqb (Merged.User r) (Staff.Email s) = false) ->
        Merged.Staff_Name r = None
        /\ ~ In r (filtered_merged m (selection m ui)))
  /\ (forall r, In r (filtered_merged m (selection m ui)) ->
        Merged.Staff_Name r <> None)
  /\ total_sales (filtered_merged m (selection m ui))
     = Qc_sum (dropna (map Merged.Sales (filter has_staff_name m)))
  /\ total_transactions (filtered_merged m (selection m ui))
     = Z.of_nat (List.length (filter has_staff_name m)).
Proof.
  intros Hm Hui.
  assert (Hfm : filtered_merged m (selection m ui) = filter has_staff_name m).
  { unfold selection. rewrite Hui. simpl. unfold filtered_merged.
    apply filter_ext_In'. intros r Hr. now apply isin_staff_names. }
  split; [exact Hfm|].
  split.
  { intros r Hr Hno.
    destruct (merged_rows _ _ _ Hm Hr) as (j & Hj & Hw).
    apply with_sales_user in Hw. destruct Hw as [Hu Hn].
    assert (Hnone : Merged.Staff_Name r = None).
    { rewrite Hn. apply (merge2_unmatched_user tx items staff j Hj).
      intros s Hs. rewrite <- Hu. now apply Hno. }
    split; [exact Hnone|].
    rewrite Hfm, filter_In. unfold has_staff_name. rewrite Hnone.
    intros [_ H]; discriminate. }
  split.
  { intros r. rewrite Hfm, filter_In. unfold has_staff_name.
    destruct (Merged.Staff_Name r); [discriminate | intros [_ H]; discriminate]. }
  split.
  { rewrite Hfm. unfold total_sales. apply sum_skipna_dropna. }
  rewrite Hfm. reflexivity.
Qed.

Lemma default_selection_drops_unnamed_witness :
  merged (merge2 (parsed_of [tx_cod; tx_stranger]) [item_cod] [staff_alice])
  = inr (merged_of (merge2 (parsed_of [tx_cod; tx_stranger]) [item_cod] [staff_alice]))
  /\ staff_choice (ui_default day_2024_01_01) = None
  /\ map (fun r => (Merged.User r, Merged.Staff_Name r, as_Q (Merged.Sales r)))
         (merged_of (merge2 (parsed_of [tx_cod; tx_stranger]) [item_cod] [staff_alice]))
     = [(Some "a@x.com", Some "Alice", Some (10 # 1));
        (Some "z@x.com", None, Some (15 # 1))]
  /\ map Merged.User
         (filtered_merged
            (merged_of (merge2 (parsed_of [tx_cod; tx_stranger]) [item_cod] [staff_alice]))
            (selection
               (merged_of (merge2 (parsed_of [tx_cod; tx_stranger]) [item_cod] [staff_alice]))
               (ui_default day_2024_01_01)))
     = [Some "a@x.com"]
  /\ total_transactions
       (filtered_merged
          (merged_of (merge2 (parsed_of [tx_cod; tx_stranger]) [item_cod] [staff_alice]))
          (selection
             (merged_of (merge2 (parsed_of [tx_cod; tx_stranger]) [item_cod] [staff_alice]))
             (ui_default day_2024_01_01)))
     = 1.
Proof.
  assert (H1 : merged (merge2 (parsed_of [tx_cod; tx_stranger]) [item_cod] [staff_alice])
               = inr (merged_of (merge2 (parsed_of [tx_cod; tx_stranger])
                                        [item_cod] [staff_alice])))
    by (vm_compute; reflexivity).
  split; [exact H1|]. split; [reflexivity|].
  destruct (default_selection_drops_unnamed
              (parsed_of [tx_cod; tx_stranger]) [item_cod] [staff_alice] _
              (ui_default day_2024_01_01) H1 eq_refl)
    as (Hfm & _ & _ & _ & Hcount).
  split; [vm_compute; reflexivity|].
  split.
  - rewrite Hfm. vm_compute; reflexivity.
  - rewrite Hcount. vm_compute; reflexivity.
Defined.

(** ** Currency parsing *)


Lemma exn_is_ValueError (e : exn) : exists msg, e = ValueError msg.
Proof. destruct e as [msg]. now exists msg. Qed.














(** ** Timestamp parsing *)

(** C8, as stated, fails: one unrecognisable Timestamp raises for the whole
    column, although the other row parses on its own, and the run ends with
    nothing rendered. *)
Lemma bad_timestamp_aborts_run :
  to_datetime [tx_cod]
  = inr [Tx.mk (Some 1704067200000000000) (Some "Cod") (Some "a@x.com")
               (Some "Bob") (Num (Qc_of_Z 2))]
  /\ to_datetime [tx_cod; tx_bad_timestamp]
     = inl (ValueError "Unknown datetime string format, unable to parse: yesterday")
  /\ run [tx_cod; tx_bad_timestamp] [item_cod] [staff_alice]
         (ui_default day_2024_01_01)
     = ([], inl (ValueError "Unknown datetime string format, unable to parse: yesterday")).
Proof. repeat split; vm_compute; reflexivity. Qed.

Lemma mapM_ext {A B} (f g : A -> result B) (l : list A) :
  (forall a, f a = g a) -> mapM f l = mapM g l.
Proof.
  intros H. induction l as [|a l IH]; simpl; [reflexivity|].
  now rewrite H, IH.
Qed.

Lemma to_datetime_is_an_instance (transactions : raw_transactions) :
  to_datetime_with (fun _ => parse_datetime) transactions = to_datetime transactions.
Proof.
  unfold to_datetime_with, to_datetime. apply mapM_ext. intros r.
  unfold read_timestamp, parse_timestamp, to_datetime1, rbind.
  destruct (Tx.Timestamp r) as [s|]; [|reflexivity].
  destruct (parse_datetime s); reflexivity.
Qed.

Lemma run_is_an_instance transactions items staff ui :
  run_with (fun _ => parse_datetime) transactions items staff ui
  = run transactions items staff ui.
Proof.
  unfold run_with, run, dashboard, dashboard_after_parse.
  unfold sbind at 1 3. unfold lift at 1 3.
  now rewrite to_datetime_is_an_instance.
Qed.

Lemma read_column_all (read : string -> option Z) (l : raw_transactions) :
  (forall s, In (Some s) (map Tx.Timestamp l) -> read s <> None) ->
  mapM (read_timestamp read) l
  = inr (map (fun r =>
                Tx.mk (match Tx.Timestamp r with
                       | Some s => read s
                       | None => None
                       end)
                      (Tx.Food r) (Tx.User r) (Tx.Customer r) (Tx.Amount r)) l).
Proof.
  induction l as [|r l IH]; intros Hall; [reflexivity|].
  cbn [mapM map]. rewrite IH by (intros s Hs; apply Hall; now right).
  unfold read_timestamp.
  destruct (Tx.Timestamp r) as [s|] eqn:E; [|reflexivity].
  destruct (read s) as [t|] eqn:Er; [reflexivity|].
  exfalso. apply (Hall s); [left; exact E | exact Er].
Qed.

(** C8, amended.  Parsing the Timestamp column is all or nothing, whatever
    [pd.to_datetime] accepts as a date.  When it accepts every present value
    of the column, each row gets its own parsed Timestamp (a missing value
    becomes NaT) and keeps its other columns, and the script goes on from
    line 42.  When it rejects one value, the call raises ValueError for the
    whole column: no row is parsed, nothing is reported per value, and the
    run ends before any metric, chart or table is rendered.  The ISO reading
    used by [run] is one such reading. *)
Theorem to_datetime_all_or_nothing
    (read_datetime : list (option string) -> string -> option Z)
    (transactions : raw_transactions) :
  ((forall s, In (Some s) (map Tx.Timestamp transactions) ->
              read_datetime (map Tx.Timestamp transactions) s <> None) ->
   to_datetime_with read_datetime transactions
   = inr (map (fun r =>
                 Tx.mk (match Tx.Timestamp r with
                        | Some s => read_datetime (map Tx.Timestamp transactions) s
                        | None => None
                        end)
                       (Tx.Food r) (Tx.User r) (Tx.Customer r) (Tx.Amount r))
              transactions)
   /\ forall items staff ui,
        run_with read_datetime transactions items staff ui
        = run_after_parse
            (map (fun r =>
                    Tx.mk (match Tx.Timestamp r with
                           | Some s => read_datetime (map Tx.Timestamp transactions) s
                           | None => None
                           end)
                          (Tx.Food r) (Tx.User r) (Tx.Customer r) (Tx.Amount r))
                 transactions)
            items staff ui)
  /\ (forall r s,
        In r transactions -> Tx.Timestamp r = Some s ->
        read_datetime (map Tx.Timestamp transactions) s = None ->
        (exists msg, to_datetime_with read_datetime transactions
                     = inl (ValueError msg))
        /\ forall items staff ui,
             exists msg, run_with read_datetime transactions items staff ui
                         = ([], inl (ValueError msg)))
  /\ to_datetime_with (fun _ => parse_datetime) transactions
     = to_datetime transactions
  /\ (forall items staff ui,
        run_with (fun _ => parse_datetime) transactions items staff ui
        = run transactions items staff ui).
Proof.
  split.
  { intros Hall.
    assert (H : to_datetime_with read_datetime transactions
                = inr (map (fun r =>
                       Tx.mk (match Tx.Timestamp r with
                              | Some s => read_datetime (map Tx.Timestamp transactions) s
                              | None => None
                              end)
                             (Tx.Food r) (Tx.User r) (Tx.Customer r) (Tx.Amount r))
                    transactions)).
    { unfold to_datetime_with.
      exact (read_column_all (read_datetime (map Tx.Timestamp transactions))
                             transactions Hall). }
    split; [exact H|].
    intros items staff ui. unfold run_with, run_after_parse.
    unfold sbind at 1. unfold lift at 1. rewrite H. reflexivity. }
  split.
  { intros r s Hr Hts Hbad.
    assert (Hp : exists msg,
               read_timestamp (read_datetime (map Tx.Timestamp transactions)) r
               = inl (ValueError msg)).
    { unfold read_timestamp. rewrite Hts, Hbad. eexists; reflexivity. }
    destruct Hp as (msg & Hp).
    destruct (mapM_raises _ transactions r _ Hr Hp) as (e & He).
    destruct (exn_is_ValueError e) as (msg' & ->).
    split; [exists msg'; exact He|].
    intros items staff ui. exists msg'.
    unfold run_with. unfold sbind at 1. unfold lift at 1.
    unfold to_datetime_with. rewrite He. reflexivity. }
  split; [apply to_datetime_is_an_instance|].
  intros items staff ui. apply run_is_an_instance.
Qed.

Lemma to_datetime_all_or_nothing_witness :
  In tx_bad_timestamp [tx_cod; tx_bad_timestamp]
  /\ Tx.Timestamp tx_bad_timestamp = Some "yesterday"
  /\ parse_datetime "yesterday" = None
  /\ (exists msg,
        to_datetime_with (fun _ => parse_datetime) [tx_cod; tx_bad_timestamp]
        = inl (ValueError msg))
  /\ (forall items staff ui,
        exists msg,
          run_with (fun _ => parse_datetime) [tx_cod; tx_bad_timestamp]
                   items staff ui
          = ([], inl (ValueError msg)))
  /\ (forall s, In (Some s) (map Tx.Timestamp [tx_cod]) -> parse_datetime s <> None)
  /\ to_datetime_with (fun _ => parse_datetime) [tx_cod]
     = inr [Tx.mk (Some 1704067200000000000) (Some "Cod") (Some "a@x.com")
                  (Some "Bob") (Num (Qc_of_Z 2))].
Proof.
  assert (H1 : In tx_bad_timestamp [tx_cod; tx_bad_timestamp])
    by (right; left; reflexivity).
  assert (H3 : parse_datetime "yesterday" = None) by (vm_compute; reflexivity).
  assert (H4 : forall s, In (Some s) (map Tx.Timestamp [tx_cod]) ->
                         parse_datetime s <> None).
  { intros s [E|[]]. injection E as <-. vm_compute. discriminate. }
  split; [exact H1|]. split; [reflexivity|]. split; [exact H3|].
  destruct (proj1 (proj2 (to_datetime_all_or_nothing
                            (fun _ => parse_datetime) [tx_cod; tx_bad_timestamp]))
                  tx_bad_timestamp "yesterday" H1 eq_refl H3) as [Hcol Hrun].
  split; [exact Hcol|]. split; [exact Hrun|]. split; [exact H4|].
  exact (proj1 (proj1 (to_datetime_all_or_nothing
                         (fun _ => parse_datetime) [tx_cod]) H4)).
Defined.

(** ** The three grouped views *)

(** C3 at a selection of one staff member out of two: the staff and customer
    views hold only the selected member's rows, the item-by-profit view also
    holds the Crab sold by Carol, who is not selected. *)
Lemma profit_view_ignores_staff_filter :
  load_merged [tx_cod; tx_crab] [item_cod; item_crab] [staff_alice; staff_carol]
              (mk_sidebar day_2024_01_01 day_2024_01_01 (Some ["Alice"]))
  = inr two_staff_merged
  /\ map Merged.Staff_Name
         (filtered_merged two_staff_merged
            (selection two_staff_merged
               (mk_sidebar day_2024_01_01 day_2024_01_01 (Some ["Alice"]))))
     = [Some "Alice"]
  /\ bars_Q (sales_by_item (filtered_merged two_staff_merged ["Alice"]))
     = [("Alice", 10 # 1)]
  /\ bars_Q (sales_by_customer (filtered_merged two_staff_merged ["Alice"]))
     = [("Bob", 10 # 1)]
  /\ profit_bars_Q (top_profit_items (profited_of two_staff_merged))
     = [("Crab", 18 # 1, 3 # 1); ("Cod", 6 # 1, 2 # 1)]
  /\ profit_bars_Q
       (top_profit_items
          (staff_filtered_profit (profited_of two_staff_merged) ["Alice"]))
     = [("Cod", 6 # 1, 2 # 1)]
  /\ nth_error
       (fst (run [tx_cod; tx_crab] [item_cod; item_crab] [staff_alice; staff_carol]
                 (mk_sidebar day_2024_01_01 day_2024_01_01 (Some ["Alice"]))))
       8
     = Some (ProfitChart (top_profit_items (profited_of two_staff_merged))).
Proof. repeat split; vm_compute; reflexivity. Qed.




(** The left joins keep every filtered transaction: each one gives at least
    one row of [merged], carrying its own Timestamp, Food, User, Customer and
    Amount. *)
Theorem left_joins_keep_every_transaction
    (tx : transactions_t) (items : list Items.t) (staff : list Staff.t) :
  forall t, In t tx ->
    exists j, In j (merge2 tx items staff)
              /\ Joined.Timestamp j = Tx.Timestamp t
              /\ Joined.Food j = Tx.Food t
              /\ Joined.User j = Tx.User t
              /\ Joined.Customer j = Tx.Customer t
              /\ Joined.Amount j = Tx.Amount t.
Proof.
  intros t Ht.
  assert (H1 : exists oi, In (t, oi) (merge1 tx items)).
  { unfold merge1.
    destruct (filter (fun r => key_eqb (Tx.Food t) (Items.Item r)) items)
      as [|i ms] eqn:Ef.
    - exists None. apply merge_left_In. split; [assumption|].
      intros r Hr. destruct (key_eqb (Tx.Food t) (Items.Item r)) eqn:E; [|reflexivity].
      assert (Hf : In r (filter (fun r => key_eqb (Tx.Food t) (Items.Item r)) items))
        by (apply filter_In; auto).
      rewrite Ef in Hf. contradiction.
    - exists (Some i). apply merge_left_In. split; [assumption|].
      assert (Hf : In i (filter (fun r => key_eqb (Tx.Food t) (Items.Item r)) items))
        by (rewrite Ef; now left).
      now apply filter_In in Hf. }
  destruct H1 as (oi & Hoi).
  assert (H2 : exists os,
             In (t, oi, os)
                (merge_left (fun x => Tx.User (fst x)) Staff.Email
                            (merge1 tx items) staff)).
  { destruct (filter (fun r => key_eqb (Tx.User t) (Staff.Email r)) staff)
      as [|s ms] eqn:Ef.
    - exists None. apply merge_left_In. split; [assumption|]. simpl.
      intros r Hr. destruct (key_eqb (Tx.User t) (Staff.Email r)) eqn:E; [|reflexivity].
      assert (Hf : In r (filter (fun r => key_eqb (Tx.User t) (Staff.Email r)) staff))
        by (apply filter_In; auto).
      rewrite Ef in Hf. contradiction.
    - exists (Some s). apply merge_left_In. split; [assumption|]. simpl.
      assert (Hf : In s (filter (fun r => key_eqb (Tx.User t) (Staff.Email r)) staff))
        by (rewrite Ef; now left).
      now apply filter_In in Hf. }
  destruct H2 as (os & Hos).
  exists (joined_row (t, oi, os)). split.
  - unfold merge2. now apply in_map.
  - simpl. repeat split; reflexivity.
Qed.

Lemma left_joins_keep_every_transaction_witness :
  In tx_late_evening [tx_late_evening]
  /\ exists j, In j (merge2 [tx_late_evening] [] [staff_carol])
               /\ Joined.Timestamp j = Tx.Timestamp tx_late_evening
               /\ Joined.Food j = Tx.Food tx_late_evening
               /\ Joined.User j = Tx.User tx_late_evening
               /\ Joined.Customer j = Tx.Customer tx_late_evening
               /\ Joined.Amount j = Tx.Amount tx_late_evening.
Proof.
  assert (H : In tx_late_evening [tx_late_evening]) by (left; reflexivity).
  split; [exact H|].
  exact (left_joins_keep_every_transaction [tx_late_evening] [] [staff_carol]
                                           tx_late_evening H).
Defined.

(** ** Joins on unique keys *)

Lemma filter_absent_key {R} (f : R -> key) (k : key) (l : list R) :
  ~ In k (map f l) -> filter (fun r => key_eqb k (f r)) l = [].
Proof.
  induction l as [|a l IH]; simpl; intros Hnotin; [reflexivity|].
  destruct (key_eqb k (f a)) eqn:E.
  - apply key_eqb_eq in E. exfalso. apply Hnotin. now left.
  - apply IH. intros H. apply Hnotin. now right.
Qed.

Lemma filter_unique_key {R} (f : R -> key) (k : key) (l : list R) :
  NoDup (map f l) ->
  filter (fun r => key_eqb k (f r)) l = []
  \/ exists r, filter (fun r => key_eqb k (f r)) l = [r].
Proof.
  induction l as [|a l IH]; simpl; intros Hnd; [now left|].
  inversion Hnd as [|? ? Hnotin Hnd']; subst.
  destruct (key_eqb k (f a)) eqn:E.
  - right. exists a. f_equal.
    apply key_eqb_eq in E. subst k. now apply filter_absent_key.
  - now apply IH.
Qed.

Lemma merge_left_unique {L R} (left_on : L -> key) (right_on : R -> key)
    (left : list L) (right : list R) :
  NoDup (map right_on right) ->
  map fst (merge_left left_on right_on left right) = left.
Proof.
  intros Hnd. unfold merge_left.
  induction left as [|l left IH]; [reflexivity|].
  cbn [flat_map]. rewrite map_app, IH. clear IH.
  destruct (filter_unique_key right_on (left_on l) right Hnd) as [->|(r & ->)];
    reflexivity.
Qed.

Lemma tx_of_joined_row (x : Tx.t (option Z) * option Items.t * option Staff.t) :
  tx_of_joined (joined_row x) = fst (fst x).
Proof. destruct x as [[[ts f u c a] it] st]. reflexivity. Qed.

(** With unique Item names and unique staff Emails the two left joins do not
    fan out: [merged] has exactly one row per filtered transaction, in the
    same order and with the same transaction columns. *)
Theorem unique_keys_give_one_row_per_transaction
    (tx : transactions_t) (items : list Items.t) (staff : list Staff.t) :
  NoDup (map Items.Item items) ->
  NoDup (map Staff.Email staff) ->
  map tx_of_joined (merge2 tx items staff) = tx
  /\ List.length (merge2 tx items staff) = List.length tx.
Proof.
  intros Hi Hs.
  assert (H : map tx_of_joined (merge2 tx items staff) = tx).
  { unfold merge2, merge1. rewrite map_map.
    rewrite (map_ext _ (fun x => fst (fst x)) tx_of_joined_row).
    rewrite <- (map_map fst fst).
    rewrite (merge_left_unique _ Staff.Email _ staff Hs).
    apply (merge_left_unique Tx.Food Items.Item tx items Hi). }
  split; [exact H|].
  rewrite <- H at 2. now rewrite length_map.
Qed.

Lemma unique_keys_give_one_row_per_transaction_witness :
  NoDup (map Items.Item [item_cod; item_crab])
  /\ NoDup (map Staff.Email [staff_alice; staff_carol])
  /\ map tx_of_joined
         (merge2 [tx_late_evening; tx_next_day] [item_cod; item_crab]
                 [staff_alice; staff_carol])
     = [tx_late_evening; tx_next_day]
  /\ List.length (merge2 [tx_late_evening; tx_next_day] [item_cod; item_crab]
                         [staff_alice; staff_carol])
     = List.length [tx_late_evening; tx_next_day].
Proof.
  assert (H1 : NoDup (map Items.Item [item_cod; item_crab])).
  { simpl. constructor; [|constructor; [|constructor]]; simpl.
    - intros [H|[]]; discriminate.
    - tauto. }
  assert (H2 : NoDup (map Staff.Email [staff_alice; staff_carol])).
  { simpl. constructor; [|constructor; [|constructor]]; simpl.
    - intros [H|[]]; discriminate.
    - tauto. }
  split; [exact H1|]. split; [exact H2|].
  exact (unique_keys_give_one_row_per_transaction
           [tx_late_evening; tx_next_day] [item_cod; item_crab]
           [staff_alice; staff_carol] H1 H2).
Defined.

(** ** The staff options *)

Lemma NoDup_unique_from (seen l : list string) : NoDup (unique_from seen l).
Proof.
  revert seen; induction l as [|x l IH]; intros seen; simpl; [constructor|].
  destruct (mem x seen); [apply IH|].
  constructor; [|apply IH].
  rewrite In_unique_from. simpl. tauto.
Qed.

Lemma multiselect_incl (options : list string) (choice : option (list string)) :
  incl (multiselect options choice) options.
Proof.
  destruct choice as [l|]; simpl; [|apply incl_refl].
  intros n Hn. apply filter_In in Hn. now apply mem_In.
Qed.

(** The options of the staff multiselect are exactly the Staff Names that
    occur in [merged], each once and none missing; whatever the user picks is
    among them, so the rows kept by any selection are rows of the default
    selection, in the same order. *)
Theorem staff_options_and_selection (m : list Merged.t) (ui : sidebar) :
  (forall n, In n (staff_names m) <->
             exists r, In r m /\ Merged.Staff_Name r = Some n)
  /\ NoDup (staff_names m)
  /\ incl (selection m ui) (staff_names m)
  /\ subseq (filtered_merged m (selection m ui))
            (filtered_merged m (staff_names m)).
Proof.
  split.
  { intros n. unfold staff_names. rewrite In_unique, In_dropna, in_map_iff.
    split; intros (r & H1 & H2); exists r; auto. }
  split; [apply NoDup_unique_from|].
  split; [apply multiselect_incl|].
  unfold filtered_merged. apply subseq_filter.
  intros r _. unfold isin. destruct (Merged.Staff_Name r) as [n|]; [|discriminate].
  rewrite !mem_In. apply multiselect_incl.
Qed.

(** ** The default date range *)

Lemma fold_opt_min_origin (l : list (option Z)) (a : option Z) (m : Z) :
  fold_left opt_min l a = Some m -> a = Some m \/ In (Some m) l.
Proof.
  revert a; induction l as [|y l IH]; intros a; simpl; [now left|].
  intros H. destruct (IH _ H) as [Hm|Hin]; [|now right; right].
  destruct a as [x|], y as [y'|]; simpl in Hm.
  - injection Hm as <-.
    destruct (Z.min_spec x y') as [[_ E]|[_ E]]; rewrite E; auto.
  - now left.
  - right. left. assumption.
  - discriminate.
Qed.

Lemma filtered_tx_inverted_range (start_date end_date : Z) (tx : transactions_t) :
  end_date < start_date -> filtered_tx start_date end_date tx = [].
Proof.
  intros Hlt. unfold filtered_tx.
  induction tx as [|r tx IH]; simpl; [reflexivity|].
  rewrite IH. unfold mask.
  destruct (Tx.Timestamp r) as [t|]; [|reflexivity].
  destruct (start_date <=? date t) eqn:E1, (date t <=? end_date) eqn:E2;
    try reflexivity.
  apply Z.leb_le in E1, E2. lia.
Qed.

(** The default date range [min_date, max_date] is a proper range and keeps
    exactly the transactions that have a Timestamp: a row whose Timestamp is
    missing is dropped by every date range, the widest included. *)
Theorem default_range_keeps_timestamped_rows
    (transactions : transactions_t) (lo hi : Z) :
  min_date transactions = Some lo ->
  max_date transactions = Some hi ->
  lo <= hi
  /\ filtered_tx lo hi transactions = filter has_timestamp transactions
  /\ forall a b, subseq (filtered_tx a b transactions)
                        (filter has_timestamp transactions).
Proof.
  intros Hlo Hhi.
  assert (Hall : forall a b, subseq (filtered_tx a b transactions)
                                    (filter has_timestamp transactions)).
  { intros a b. unfold filtered_tx. apply subseq_filter.
    intros r _. unfold mask, has_timestamp.
    destruct (Tx.Timestamp r); [reflexivity | discriminate]. }
  split; [|split; [|exact Hall]].
  - pose proof Hlo as Hlo'. unfold min_date, ts_min in Hlo'.
    destruct (fold_left opt_min (map Tx.Timestamp transactions) None)
      as [m|] eqn:Em; [|discriminate].
    simpl in Hlo'. injection Hlo' as <-.
    destruct (fold_opt_min_origin _ _ _ Em) as [H|Hin]; [discriminate|].
    apply in_map_iff in Hin. destruct Hin as (r & Hts & Hr).
    apply (full_range_covers transactions (date m) hi r m Hlo Hhi Hr Hts).
  - unfold filtered_tx. apply filter_ext_In'.
    intros r Hr. unfold has_timestamp.
    destruct (Tx.Timestamp r) as [t|] eqn:Hts; [|now apply mask_NaT].
    apply (mask_spec _ _ _ _ Hts).
    eapply full_range_covers; eassumption.
Qed.

Lemma default_range_keeps_timestamped_rows_witness :
  min_date [tx_late_evening; tx_no_timestamp; tx_next_day] = Some 19723
  /\ max_date [tx_late_evening; tx_no_timestamp; tx_next_day] = Some 19725
  /\ 19723 <= 19725
  /\ filtered_tx 19723 19725 [tx_late_evening; tx_no_timestamp; tx_next_day]
     = filter has_timestamp [tx_late_evening; tx_no_timestamp; tx_next_day]
  /\ forall a b,
       subseq (filtered_tx a b [tx_late_evening; tx_no_timestamp; tx_next_day])
              (filter has_timestamp [tx_late_evening; tx_no_timestamp; tx_next_day]).
Proof.
  split; [reflexivity|]. split; [reflexivity|].
  exact (default_range_keeps_timestamped_rows
           [tx_late_evening; tx_no_timestamp; tx_next_day] 19723 19725
           eq_refl eq_refl).
Defined.

(** ** Transactions without a matching item *)

Lemma merge2_unmatched_food (tx : transactions_t) items staff (j : Joined.t) :
  In j (merge2 tx items staff) ->
  (forall i, In i items -> key_eqb (Joined.Food j) (Items.Item i) = false) ->
  Joined.Item j = None /\ Joined.RRP j = NaN /\ Joined.Material_Cost j = NaN.
Proof.
  unfold merge2. rewrite in_map_iff.
  intros ([[t [i|]] st] & <- & Hin) Hno; simpl in *; [|auto].
  apply merge_left_In in Hin. destruct Hin as (Hin & _).
  apply merge_left_In in Hin. destruct Hin as (_ & Hi & Hk).
  rewrite (Hno i Hi) in Hk. discriminate.
Qed.

Lemma with_sales_food (j : Joined.t) (r : Merged.t) :
  with_sales j = inr r -> Merged.Food r = Joined.Food j.
Proof.
  unfold with_sales, rbind.
  destruct (clean_currency (Joined.RRP j)) as [e|rrp]; [discriminate|].
  intros H; injection H as <-. reflexivity.
Qed.

Lemma with_profit_food (r : Merged.t) (q : Profited.t) :
  with_profit r = inr q -> Profited.Food q = Merged.Food r.
Proof.
  unfold with_profit, rbind.
  destruct (clean_currency (Merged.Material_Cost r)) as [e|c]; [discriminate|].
  intros H; injection H as <-. reflexivity.
Qed.

(** A transaction whose Food names no Item of the price list stays in
    [merged] with Item, RRP and Sales missing, whatever its Amount; its
    Profit is missing too, and the item-by-profit view has no bar for it. *)
Theorem unknown_food_has_no_sales
    (tx : transactions_t) (items : list Items.t) (staff : list Staff.t)
    (m : list Merged.t) :
  merged (merge2 tx items staff) = inr m ->
  (forall r, In r m ->
     (forall i, In i items -> key_eqb (Merged.Food r) (Items.Item i) = false) ->
     Merged.Item r = None /\ Merged.RRP r = None /\ Merged.Sales r = None)
  /\ (forall p q, merged_profit m = inr p -> In q p ->
        (forall i, In i items -> key_eqb (Profited.Food q) (Items.Item i) = false) ->
        Profited.Profit q = None
        /\ forall k, ~ In q (rows_of Profited.Item k p)).
Proof.
  intros Hm.
  assert (H1 : forall r, In r m ->
     (forall i, In i items -> key_eqb (Merged.Food r) (Items.Item i) = false) ->
     Merged.Item r = None /\ Merged.RRP r = None /\ Merged.Sales r = None
     /\ Merged.Material_Cost r = NaN).
  { intros r Hr Hno.
    destruct (merged_rows _ _ _ Hm Hr) as (j & Hj & Hw).
    pose proof (with_sales_food _ _ Hw) as Hfood.
    apply with_sales_inr in Hw.
    destruct Hw as (Hrrp & _ & Hsales & _ & _ & Hitem & Hcost).
    destruct (merge2_unmatched_food tx items staff j Hj) as (Hi & Hr' & Hc).
    { intros i Hi. rewrite <- Hfood. now apply Hno. }
    rewrite Hr' in Hrrp. unfold clean_currency in Hrrp. simpl in Hrrp.
    injection Hrrp as Hrrp.
    rewrite Hitem, Hi, Hsales, <- Hrrp, Hcost, Hc.
    repeat split. now destruct (Merged.Amount r). }
  split.
  { intros r Hr Hno. destruct (H1 r Hr Hno) as (? & ? & ? & _). auto. }
  intros p q Hp Hq Hno.
  destruct (merged_profit_rows _ _ _ Hp Hq) as (r & Hr & Hw).
  pose proof (with_profit_food _ _ Hw) as Hfood.
  apply with_profit_inr in Hw.
  destruct Hw as (_ & _ & HR & _ & HP & HI & _).
  destruct (H1 r Hr) as (Hitem & Hrrp & _).
  { intros i Hi. rewrite <- Hfood. now apply Hno. }
  split.
  - rewrite HP, HR, Hrrp. reflexivity.
  - intros k Hin. unfold rows_of in Hin. apply filter_In in Hin.
    destruct Hin as [_ Hk]. rewrite HI, Hitem in Hk. discriminate.
Qed.

Lemma unknown_food_has_no_sales_witness :
  merged (merge2 [tx_unknown_food] [item_cod] [staff_alice])
  = inr (merged_of (merge2 [tx_unknown_food] [item_cod] [staff_alice]))
  /\ map (fun r => (Merged.Food r, Merged.Item r, as_Q (Merged.Amount r),
                    as_Q (Merged.RRP r), as_Q (Merged.Sales r)))
         (merged_of (merge2 [tx_unknown_food] [item_cod] [staff_alice]))
     = [(Some "Eel", None, Some (4 # 1), None, None)]
  /\ forall r,
       In r (merged_of (merge2 [tx_unknown_food] [item_cod] [staff_alice])) ->
       (forall i, In i [item_cod] ->
                  key_eqb (Merged.Food r) (Items.Item i) = false) ->
       Merged.Item r = None /\ Merged.RRP r = None /\ Merged.Sales r = None.
Proof.
  assert (H : merged (merge2 [tx_unknown_food] [item_cod] [staff_alice])
              = inr (merged_of (merge2 [tx_unknown_food] [item_cod] [staff_alice])))
    by (vm_compute; reflexivity).
  split; [exact H|]. split; [vm_compute; reflexivity|].
  exact (proj1 (unknown_food_has_no_sales [tx_unknown_food] [item_cod]
                                          [staff_alice] _ H)).
Defined.

(** ** When the Top Seller metric raises *)

Lemma merged_nil : merged [] = inr [].
Proof. reflexivity. Qed.

Lemma staff_sales_nonempty (m : list Merged.t) (selected_staff : list string) :
  filtered_merged m selected_staff <> [] ->
  sort_desc snd (sales_by_staff_name (filtered_merged m selected_staff)) <> [].
Proof.
  set (fm := filtered_merged m selected_staff). intros Hne.
  destruct fm as [|r0 rest] eqn:Efm; [congruence|].
  assert (Hr0 : In r0 fm) by (rewrite Efm; now left).
  rewrite <- Efm.
  pose proof Hr0 as Hsel. apply filtered_merged_In in Hsel.
  destruct Hsel as (_ & n0 & Hn0 & _).
  pose proof (groupby_sum_key Merged.Staff_Name Merged.Sales fm r0 n0 Hr0 Hn0) as Hg.
  intros E. apply (In_sort_desc snd) in Hg.
  unfold sales_by_staff_name in E. rewrite E in Hg. contradiction.
Qed.

(** The Top Seller metric of lines 109-114 raises exactly when no row passes
    the staff filter: on every non-empty filtered frame there is a group, and
    [idxmax] returns its label. *)
Lemma top_staff_raises_iff_empty (m : list Merged.t) (selected_staff : list string) :
  (exists e, top_staff (filtered_merged m selected_staff) = inl e)
  <-> filtered_merged m selected_staff = [].
Proof.
  split.
  - intros (e & He).
    destruct (filtered_merged m selected_staff) as [|r rest] eqn:E; [reflexivity|].
    exfalso.
    assert (Hne : filtered_merged m selected_staff <> []) by (rewrite E; discriminate).
    apply staff_sales_nonempty in Hne. rewrite E in Hne.
    unfold top_staff, idxmax in He.
    destruct (sort_desc snd (sales_by_staff_name (r :: rest))); [congruence | discriminate].
  - intros ->. eexists. reflexivity.
Qed.

(** An inverted date range (end before start) leaves no transaction: for
    every table whose Timestamps parse, and every staff selection, the run
    shows Total Sales $0.00 and 0 transactions and then raises at the Top
    Seller metric. *)
Theorem inverted_date_range_raises
    (transactions : raw_transactions) (items : list Items.t)
    (staff : list Staff.t) (ui : sidebar) (tx : transactions_t) :
  to_datetime transactions = inr tx ->
  end_date ui < start_date ui ->
  run transactions items staff ui
  = ([ Metric "Total Sales (RRP)" (MText "$0.00") None;
       Metric "Transactions" (MInt 0) None ],
     inl (ValueError "attempt to get argmax of an empty sequence")).
Proof.
  intros Htx Hlt.
  assert (Hload : load_merged transactions items staff ui = inr []).
  { unfold load_merged. rewrite Htx. simpl.
    now rewrite filtered_tx_inverted_range. }
  rewrite (run_loaded _ _ _ _ _ Hload). reflexivity.
Qed.

Lemma inverted_date_range_raises_witness :
  to_datetime [tx_cod] = inr (parsed_of [tx_cod])
  /\ end_date (mk_sidebar 19724 19723 None) < start_date (mk_sidebar 19724 19723 None)
  /\ run [tx_cod] [item_cod] [staff_alice] (mk_sidebar 19724 19723 None)
     = ([ Metric "Total Sales (RRP)" (MText "$0.00") None;
          Metric "Transactions" (MInt 0) None ],
        inl (ValueError "attempt to get argmax of an empty sequence")).
Proof.
  assert (H1 : to_datetime [tx_cod] = inr (parsed_of [tx_cod]))
    by (vm_compute; reflexivity).
  assert (H2 : end_date (mk_sidebar 19724 19723 None)
               < start_date (mk_sidebar 19724 19723 None)) by (simpl; lia).
  split; [exact H1|]. split; [exact H2|].
  exact (inverted_date_range_raises [tx_cod] [item_cod] [staff_alice]
                                    (mk_sidebar 19724 19723 None) _ H1 H2).
Defined.

(** ** The Top Seller metric and the staff chart *)

Lemma argmax_from_head (best : string * Qc) (l : list (string * Qc)) :
  Forall (fun q => (snd q <= snd best)%Qc) l -> argmax_from best l = fst best.
Proof.
  induction 1 as [|p l Hp _ IH]; simpl; [reflexivity|].
  apply Qc_ltb_ge in Hp. now rewrite Hp.
Qed.

Lemma descending_head_is_max {A} (v : A -> Qc) (a : A) (l : list A) :
  descending v (a :: l) -> Forall (fun b => (v b <= v a)%Qc) l.
Proof.
  unfold descending. intros Hs.
  apply (Sorted_extends (R := fun a b => (v b <= v a)%Qc)); [|assumption].
  intros x y z Hxy Hyz. eapply Qcle_trans; eassumption.
Qed.

Lemma series_max_is_max (l : list Qc) (v : Qc) :
  In v l -> (forall y, In y l -> (y <= v)%Qc) -> series_max l = Some v.
Proof.
  intros Hin Hmax.
  destruct (series_max_nonempty l) as (mx & Emx).
  { intros ->. contradiction. }
  rewrite Emx. f_equal.
  destruct (series_max_spec _ _ Emx) as [Hmx_in Hmx_max].
  apply Qcle_antisym; auto.
Qed.

(** For a non-empty filtered row set, the Top Seller metric shows the label
    and the value of the first bar of the Sales by Staff chart, and the
    chart's scale follows that bar: the axis ends at 1.1 times its value and
    the tick step is 100 below 2000 and 500 from 2000 on. *)
Theorem top_seller_is_first_bar (m : list Merged.t) (selected_staff : list string) :
  filtered_merged m selected_staff <> [] ->
  exists top v rest,
    sales_by_item (filtered_merged m selected_staff) = (top, v) :: rest
    /\ top_staff (filtered_merged m selected_staff) = inr top
    /\ top_sales (filtered_merged m selected_staff) = Some v
    /\ domain_hi (sales_chart (sales_by_item (filtered_merged m selected_staff)))
       = Some (v * Q2Qc (11 # 10))%Qc
    /\ tickMinStep (sales_chart (sales_by_item (filtered_merged m selected_staff)))
       = (if Qc_ltb v (Qc_of_Z 2000) then 100 else 500).
Proof.
  intros Hne. pose proof (staff_sales_nonempty m selected_staff Hne) as Hs.
  set (fm := filtered_merged m selected_staff) in *.
  pose proof (sort_desc_sorted snd (sales_by_staff_name fm)) as Hsorted.
  pose proof (sort_desc_perm snd (sales_by_staff_name fm)) as Hperm.
  unfold sales_by_item, top_staff.
  destruct (sort_desc snd (sales_by_staff_name fm)) as [|[top v] rest] eqn:E;
    [congruence|].
  pose proof (descending_head_is_max snd (top, v) rest Hsorted) as Hall.
  exists top, v, rest. split; [reflexivity|].
  split.
  { simpl. unfold ok. f_equal. exact (argmax_from_head (top, v) rest Hall). }
  assert (Hmax_sorted : forall y, In y (map snd ((top, v) :: rest)) -> (y <= v)%Qc).
  { intros y [<-|Hy]; [apply Qcle_refl|].
    apply in_map_iff in Hy. destruct Hy as (q & <- & Hq).
    rewrite Forall_forall in Hall. exact (Hall q Hq). }
  assert (Hsm : series_max (map snd ((top, v) :: rest)) = Some v).
  { apply series_max_is_max; [now left | exact Hmax_sorted]. }
  split.
  { unfold top_sales. apply series_max_is_max.
    - apply (Permutation_in (l := map snd ((top, v) :: rest))).
      + symmetry. now apply Permutation_map.
      + now left.
    - intros y Hy. apply Hmax_sorted.
      apply (Permutation_in (l := map snd (sales_by_staff_name fm))); [|assumption].
      now apply Permutation_map. }
  unfold sales_chart. cbv zeta. rewrite Hsm. split; reflexivity.
Qed.

Lemma top_seller_is_first_bar_witness :
  filtered_merged two_staff_merged ["Alice"; "Carol"] <> []
  /\ bars_Q (sales_by_item (filtered_merged two_staff_merged ["Alice"; "Carol"]))
     = [("Carol", 30 # 1); ("Alice", 10 # 1)]
  /\ exists top v rest,
       sales_by_item (filtered_merged two_staff_merged ["Alice"; "Carol"])
       = (top, v) :: rest
       /\ top_staff (filtered_merged two_staff_merged ["Alice"; "Carol"]) = inr top
       /\ top_sales (filtered_merged two_staff_merged ["Alice"; "Carol"]) = Some v
       /\ domain_hi (sales_chart (sales_by_item
                       (filtered_merged two_staff_merged ["Alice"; "Carol"])))
          = Some (v * Q2Qc (11 # 10))%Qc
       /\ tickMinStep (sales_chart (sales_by_item
                         (filtered_merged two_staff_merged ["Alice"; "Carol"])))
          = (if Qc_ltb v (Qc_of_Z 2000) then 100 else 500).
Proof.
  assert (H : filtered_merged two_staff_merged ["Alice"; "Carol"] <> [])
    by (vm_compute; discriminate).
  split; [exact H|]. split; [vm_compute; reflexivity|].
  exact (top_seller_is_first_bar two_staff_merged ["Alice"; "Carol"] H).
Defined.

(** ** Formatting a currency value and reading it back *)

Lemma digits_val_step (l : list ascii) : digits_val l = fold_left step10 l 0.
Proof. reflexivity. Qed.

Ltac eval_digit :=
  match goal with
  | |- context [digit_val ?c] =>
      let v := eval vm_compute in (digit_val c) in
      change (digit_val c) with v
  end.

Lemma of_uint_acc_digits (d : Decimal.uint) (acc : positive) :
  fold_left step10 (list_ascii_of_string (NilEmpty.string_of_uint d)) (Zpos acc)
  = Zpos (Pos.of_uint_acc d acc).
Proof.
  revert acc; induction d; intros acc;
    cbn [NilEmpty.string_of_uint list_ascii_of_string fold_left Pos.of_uint_acc];
    [reflexivity|..];
    rewrite <- IHd; f_equal; unfold step10; eval_digit; lia.
Qed.

Lemma of_uint_digits (d : Decimal.uint) :
  fold_left step10 (list_ascii_of_string (NilEmpty.string_of_uint d)) 0
  = Z.of_N (Pos.of_uint d).
Proof.
  induction d;
    cbn [NilEmpty.string_of_uint list_ascii_of_string fold_left Pos.of_uint];
    [reflexivity | exact IHd |..];
    cbn [Z.of_N]; rewrite <- of_uint_acc_digits; f_equal.
Qed.

Lemma NilZero_digits (d : Decimal.uint) :
  digits_val (list_ascii_of_string (NilZero.string_of_uint d))
  = Z.of_N (N.of_uint d).
Proof.
  rewrite digits_val_step. unfold N.of_uint.
  destruct d; try apply of_uint_digits. reflexivity.
Qed.

Lemma digits_of_Z_val (z : Z) : 0 <= z -> digits_val (digits_of_Z z) = z.
Proof.
  intros Hz. unfold digits_of_Z.
  rewrite NilZero_digits, DecimalN.Unsigned.of_to. now apply Z2N.id.
Qed.

Lemma NilEmpty_all_digits (d : Decimal.uint) :
  all_digits (list_ascii_of_string (NilEmpty.string_of_uint d)) = true.
Proof. induction d; simpl; auto. Qed.

Lemma digits_of_Z_shape (z : Z) :
  all_digits (digits_of_Z z) = true /\ digits_of_Z z <> [].
Proof.
  unfold digits_of_Z.
  destruct (N.to_uint (Z.to_N z)) eqn:E;
    try (split; [apply (NilEmpty_all_digits _) | simpl; discriminate]).
  split; [reflexivity | simpl; discriminate].
Qed.

Lemma two_digit_fraction (k : Z) :
  0 <= k < 100 ->
  exists f1 f2,
    pad2 (digits_of_Z k) = [f1; f2]
    /\ is_digit f1 = true /\ is_digit f2 = true
    /\ 10 * digit_val f1 + digit_val f2 = k.
Proof.
  intros Hk.
  assert (Hall : forallb two_digit_fraction_ok (map Z.of_nat (seq 0 100)) = true)
    by (vm_compute; reflexivity).
  rewrite forallb_forall in Hall.
  assert (Hin : In k (map Z.of_nat (seq 0 100))).
  { apply in_map_iff. exists (Z.to_nat k). split; [lia|].
    apply in_seq. lia. }
  specialize (Hall k Hin). unfold two_digit_fraction_ok in Hall.
  destruct (pad2 (digits_of_Z k)) as [|f1 [|f2 [|f3 l]]]; try discriminate.
  apply andb_true_iff in Hall. destruct Hall as [Hd Hv].
  apply andb_true_iff in Hd. destruct Hd as [H1 H2].
  apply Z.eqb_eq in Hv. exists f1, f2. auto.
Qed.

Lemma digit_is_kept (c : ascii) : is_digit c = true -> keep_char c = true.
Proof.
  intros H. unfold keep_char, is_currency_mark.
  destruct (Ascii.eqb_spec c "$") as [->|_]; [discriminate|].
  destruct (Ascii.eqb_spec c ",") as [->|_]; [discriminate|].
  reflexivity.
Qed.

Lemma digit_is_no_sign (c : ascii) :
  is_digit c = true ->
  Ascii.eqb c "-" = false /\ Ascii.eqb c "+" = false
  /\ Ascii.eqb c "." = false /\ is_space c = false.
Proof.
  intros H. repeat split.
  - destruct (Ascii.eqb_spec c "-") as [->|_]; [discriminate | reflexivity].
  - destruct (Ascii.eqb_spec c "+") as [->|_]; [discriminate | reflexivity].
  - destruct (Ascii.eqb_spec c ".") as [->|_]; [discriminate | reflexivity].
  - unfold is_digit, is_space in *.
    apply andb_true_iff in H. destruct H as [H1 H2].
    apply Nat.leb_le in H1, H2.
    destruct (Nat.eqb_spec (nat_of_ascii c) 32); [lia|]. simpl.
    destruct (Nat.leb_spec (nat_of_ascii c) 13); [lia|].
    now rewrite andb_false_r.
Qed.

Lemma filter_keep_digits (l : list ascii) :
  all_digits l = true -> filter keep_char l = l.
Proof.
  induction l as [|c l IH]; simpl; [reflexivity|].
  intros H. apply andb_true_iff in H. destruct H as [Hc Hl].
  rewrite (digit_is_kept c Hc), IH by assumption. reflexivity.
Qed.

Lemma filter_keep_group3_bounded (n : nat) (l : list ascii) :
  (List.length l <= n)%nat -> filter keep_char (group3 l) = filter keep_char l.
Proof.
  revert l; induction n as [|n IH]; intros l Hlen.
  - destruct l; [reflexivity | simpl in Hlen; lia].
  - destruct l as [|a [|b [|c [|d rest]]]]; try reflexivity.
    assert (Hrec : filter keep_char (group3 (d :: rest))
                   = filter keep_char (d :: rest)).
    { apply IH. simpl in *. lia. }
    change (group3 (a :: b :: c :: d :: rest))
      with ([a; b; c; ","%char] ++ group3 (d :: rest))%list.
    change (a :: b :: c :: d :: rest) with ([a; b; c] ++ d :: rest)%list.
    rewrite !filter_app, Hrec. reflexivity.
Qed.

Lemma filter_keep_grouped (ds : list ascii) :
  all_digits ds = true ->
  filter keep_char (rev (group3 (rev ds))) = ds.
Proof.
  intros H. rewrite filter_rev.
  rewrite (filter_keep_group3_bounded (List.length (rev ds))) by lia.
  rewrite <- filter_rev, rev_involutive. now apply filter_keep_digits.
Qed.

Lemma span_digits_stop (ds rest : list ascii) :
  all_digits ds = true ->
  match rest with
  | c :: _ => is_digit c = false
  | [] => True
  end ->
  span_digits (ds ++ rest) = (ds, rest).
Proof.
  intros Hds Hrest. induction ds as [|c ds IH]; simpl.
  - destruct rest as [|c rest]; [reflexivity|]. simpl. now rewrite Hrest.
  - simpl in Hds. apply andb_true_iff in Hds. destruct Hds as [Hc Hds].
    rewrite Hc, IH by assumption. reflexivity.
Qed.

Lemma lstrip_no_space (c : ascii) (l : list ascii) :
  is_space c = false -> lstrip (c :: l) = c :: l.
Proof. intros H. simpl. now rewrite H. Qed.

Lemma round_half_even_integer (q : Q) (n : Z) :
  q == inject_Z n -> round_half_even q = n.
Proof.
  intros Hq. unfold round_half_even.
  rewrite (Qfloor_comp _ _ Hq), Qfloor_Z.
  assert (E : q - inject_Z n == 0) by (rewrite Hq; ring).
  rewrite (Qcompare_comp _ _ E _ _ (Qeq_refl (1 # 2))).
  reflexivity.
Qed.

Lemma cents_value_nonneg (n : Z) :
  0 <= n -> Qc_ltb (Q2Qc (n # 100)) (Qc_of_Z 0) = false.
Proof.
  intros Hn. apply Qc_ltb_ge. unfold Qcle, Qc_of_Z.
  change (Qred (inject_Z 0) <= Qred (n # 100))%Q.
  rewrite !Qred_correct. unfold Qle. simpl. lia.
Qed.

Lemma cents_value_rounds (n : Z) :
  0 <= n -> round_half_even (Qabs (Q2Qc (n # 100)) * 100) = n.
Proof.
  intros Hn. apply round_half_even_integer.
  change (Qabs (Qred (n # 100)) * 100 == inject_Z n)%Q.
  rewrite Qred_correct, Qabs_pos.
  - unfold Qeq. simpl. lia.
  - unfold Qle. simpl. lia.
Qed.

Lemma fmt_money_cents (n : Z) :
  0 <= n ->
  fmt_money (Some (Q2Qc (n # 100)))
  = String "$" (string_of_list_ascii
                  (rev (group3 (rev (digits_of_Z (n / 100))))
                   ++ "."%char :: pad2 (digits_of_Z (n mod 100)))).
Proof.
  intros Hn. unfold fmt_money, format_2f. cbv zeta.
  rewrite (cents_value_nonneg n Hn), (cents_value_rounds n Hn). reflexivity.
Qed.

Lemma strip_currency_cents (n : Z) (f1 f2 : ascii) :
  0 <= n ->
  pad2 (digits_of_Z (n mod 100)) = [f1; f2] ->
  is_digit f1 = true -> is_digit f2 = true ->
  strip_currency (fmt_money (Some (Q2Qc (n # 100))))
  = string_of_list_ascii (digits_of_Z (n / 100) ++ ["."%char; f1; f2]).
Proof.
  intros Hn Hpad H1 H2. rewrite (fmt_money_cents n Hn), Hpad.
  unfold strip_currency. f_equal.
  cbn [list_ascii_of_string]. rewrite list_ascii_of_string_of_list_ascii.
  change (fun c => negb (is_currency_mark c)) with keep_char.
  cbn [filter]. change (keep_char "$") with false. cbv iota.
  rewrite filter_app.
  rewrite (filter_keep_grouped _ (proj1 (digits_of_Z_shape (n / 100)))).
  f_equal. cbn [filter]. change (keep_char ".") with true. cbv iota.
  now rewrite (digit_is_kept f1 H1), (digit_is_kept f2 H2).
Qed.

Lemma strip_digits_point_digits (ds : list ascii) (f1 f2 : ascii) :
  all_digits ds = true -> ds <> [] -> is_digit f2 = true ->
  strip (ds ++ ["."%char; f1; f2]) = (ds ++ ["."%char; f1; f2])%list.
Proof.
  intros Hds Hne H2. unfold strip.
  destruct ds as [|c ds]; [congruence|].
  simpl in Hds. apply andb_true_iff in Hds. destruct Hds as [Hc _].
  destruct (digit_is_no_sign c Hc) as (_ & _ & _ & Hsp).
  destruct (digit_is_no_sign f2 H2) as (_ & _ & _ & Hsp2).
  change ((c :: ds) ++ ["."%char; f1; f2])%list
    with (c :: (ds ++ ["."%char; f1; f2]))%list.
  rewrite (lstrip_no_space c _ Hsp).
  change (c :: (ds ++ ["."%char; f1; f2]))%list
    with ((c :: ds) ++ ["."%char; f1] ++ [f2])%list.
  rewrite app_assoc, rev_app_distr. cbn [rev app].
  rewrite (lstrip_no_space f2 _ Hsp2).
  cbn [rev]. rewrite rev_app_distr, rev_involutive. reflexivity.
Qed.

Lemma parse_digits_point_digits (ds : list ascii) (f1 f2 : ascii) :
  all_digits ds = true -> ds <> [] ->
  is_digit f1 = true -> is_digit f2 = true ->
  parse_float (string_of_list_ascii (ds ++ ["."%char; f1; f2]))
  = Some (Q2Qc ((100 * digits_val ds + (10 * digit_val f1 + digit_val f2)) # 100)).
Proof.
  intros Hds Hne H1 H2. unfold parse_float.
  rewrite list_ascii_of_string_of_list_ascii.
  rewrite (strip_digits_point_digits ds f1 f2 Hds Hne H2).
  destruct ds as [|c ds'] eqn:Eds; [congruence|]. rewrite <- Eds in *.
  assert (Hc : is_digit c = true).
  { rewrite Eds in Hds. simpl in Hds. now apply andb_true_iff in Hds. }
  destruct (digit_is_no_sign c Hc) as (Hminus & Hplus & _ & _).
  assert (Hshape : (ds ++ ["."%char; f1; f2])%list
                   = c :: (ds' ++ ["."%char; f1; f2])%list)
    by (rewrite Eds; reflexivity).
  rewrite Hshape, Hminus, Hplus. rewrite <- Hshape.
  unfold parse_unsigned.
  rewrite (span_digits_stop ds ["."%char; f1; f2] Hds) by reflexivity.
  change (Ascii.eqb "." ".") with true. cbv iota.
  assert (Hfrac : span_digits [f1; f2] = ([f1; f2], [])).
  { simpl. now rewrite H1, H2. }
  rewrite Hfrac.
  assert (Hnonempty : (ds ++ [f1; f2])%list = c :: (ds' ++ [f1; f2])%list)
    by (rewrite Eds; reflexivity).
  rewrite Hnonempty at 1. cbv iota.
  simpl option_map.
  assert (Hval : digits_val (ds ++ [f1; f2])
                 = 100 * digits_val ds + (10 * digit_val f1 + digit_val f2)).
  { rewrite (digits_val_step (ds ++ [f1; f2])), fold_left_app, <- digits_val_step.
    cbn [fold_left]. unfold step10. lia. }
  rewrite Hval. reflexivity.
Qed.

(** Formatting and cleaning are inverse on amounts in whole cents: for every
    n >= 0, the string that ["${:,.2f}".format] gives for n/100 (dollar sign,
    thousands separators, two decimals) is read back by the currency clean-up
    of lines 65 and 169 as exactly n/100. *)
Theorem currency_format_then_clean (n : Z) :
  0 <= n ->
  clean_currency (Str (fmt_money (Some (Q2Qc (n # 100)))))
  = inr (Some (Q2Qc (n # 100))).
Proof.
  intros Hn.
  assert (Hmod : 0 <= n mod 100 < 100) by (apply Z.mod_pos_bound; lia).
  destruct (two_digit_fraction (n mod 100) Hmod) as (f1 & f2 & Hpad & H1 & H2 & Hv).
  destruct (digits_of_Z_shape (n / 100)) as [Hds Hne].
  unfold clean_currency, replace_currency, astype_float.
  rewrite (strip_currency_cents n f1 f2 Hn Hpad H1 H2).
  rewrite (parse_digits_point_digits _ f1 f2 Hds Hne H1 H2).
  rewrite digits_of_Z_val by (apply Z.div_pos; lia).
  rewrite Hv.
  replace (100 * (n / 100) + n mod 100) with n
    by (pose proof (Z.div_mod n 100); lia).
  reflexivity.
Qed.

Lemma currency_format_then_clean_witness :
  0 <= 123456
  /\ fmt_money (Some (Q2Qc (123456 # 100))) = "$1,234.56"
  /\ clean_currency (Str (fmt_money (Some (Q2Qc (123456 # 100)))))
     = inr (Some (Q2Qc (123456 # 100))).
Proof.
  assert (H : 0 <= 123456) by lia.
  split; [exact H|]. split; [vm_compute; reflexivity|].
  exact (currency_format_then_clean 123456 H).
Defined.
